(** * Sentry hook for logrus: packet construction, stack-trace resolution
    and delivery (sentry/hook.go)

    The Go code is embedded as Rocq functions.  Go pointers and nilable
    values are [option]s ([None] is nil), Go maps are [gmap]s (wrapped in
    [option] where the code distinguishes the nil map), [interface{}]
    values carry the method sets the code inspects with type assertions,
    and calls into the libraries the hook is built on (the Go runtime,
    raven-go, pkg/errors, logrus) go through one interface, [Library]. *)

From Stdlib Require Import ZArith NArith String List Lia.
From stdpp Require Import gmap strings list fin_maps pretty.
From Equations Require Import Equations.

Local Open Scope Z_scope.

(** ** Results of code that can panic *)

Inductive outcome (A : Type) : Type :=
| Returned (a : A)
| Panicked (reason : string).
Arguments Returned {A} a.
Arguments Panicked {A} reason.

Global Instance outcome_ret : MRet outcome := fun A a => Returned a.
Global Instance outcome_bind : MBind outcome := fun A B k m =>
  match m with
  | Returned a => k a
  | Panicked r => Panicked r
  end.

(** ** Stack traces, in both representations *)

(** [errors.Frame] is a [uintptr]: a program counter. *)
Definition uintptr := N.
Definition Frame := uintptr.

(** [errors.StackTrace] is a slice of frames; [None] is the nil slice. *)
Definition StackTrace := option (list Frame).

(** [raven.StacktraceFrame], the fields the library fills in. *)
Record StacktraceFrame := {
  Filename : string;
  Function : string;
  FrameModule : string;
  AbsolutePath : string;
  Lineno : Z;
  InApp : bool
}.

(** [raven.Stacktrace]. *)
Record Stacktrace := { Frames : list StacktraceFrame }.

(** [runtime.Func], as far as callers can see it. *)
Record Func := { funcName : string; funcEntry : uintptr }.

(** ** Errors

    A Go [error] value, with the capabilities the hook asks for through
    type assertions: [Stacktracer] (GetStacktrace), [pkgErrorStackTracer]
    (StackTrace) and [causer] (Cause).  A capability is [None] when the
    dynamic type lacks the method; the inner [option] of [asStacktracer]
    and [asCauser] is the nilable result of the method.  Chains are
    finite: a cause is a sub-term. *)
#[warnings="-register-all"]
Inductive error : Type := mkError {
  Error : string;
  dynType : string;
  asStacktracer : option (option Stacktrace);
  asPkgErrorStackTracer : option StackTrace;
  asCauser : option (option error)
}.

(** ** Values of type [interface{}]

    What is stored in [logrus.Fields]: a concrete datum together with the
    interfaces [formatData] asks for in its type switch.  [Http] and [User]
    stand for the request and user descriptors of raven-go. *)
Record Http := { httpMethod : string; httpURL : string }.
Record User := { userID : string; userName : string }.

Inductive datum : Type :=
| DNil
| DString (s : string)
| DInt (n : Z)
| DBool (b : bool)
| DStrings (l : list string)
| DPairs (l : list (string * string))
| DHttp (req : Http)
| DUser (user : User)
| DOther (typ repr : string).

Record iface := mkIface {
  goValue : datum;
  asMarshaler : bool;
  asError : option error;
  asStringer : option string
}.

Definition ofString (s : string) : iface :=
  {| goValue := DString s; asMarshaler := false; asError := None; asStringer := None |}.

Definition ofError (e : error) : iface :=
  {| goValue := DOther (dynType e) (Error e); asMarshaler := false;
     asError := Some e; asStringer := None |}.

(** ** logrus levels and raven severities *)

Module logrus.
(** [logrus.Level] is a [uint32]; lower is more severe. *)
Definition Level := N.
Definition PanicLevel : Level := 0%N.
Definition FatalLevel : Level := 1%N.
Definition ErrorLevel : Level := 2%N.
Definition WarnLevel : Level := 3%N.
Definition InfoLevel : Level := 4%N.
Definition DebugLevel : Level := 5%N.
End logrus.

Module raven.
(** [raven.Severity] is a string type; its zero value is the empty string. *)
Definition Severity := string.
Definition DEBUG : Severity := "debug".
Definition INFO : Severity := "info".
Definition WARNING : Severity := "warning".
Definition ERROR : Severity := "error".
Definition FATAL : Severity := "fatal".
End raven.

Definition severityMap : gmap N raven.Severity :=
  <[logrus.DebugLevel := raven.DEBUG]>
  (<[logrus.InfoLevel := raven.INFO]>
  (<[logrus.WarnLevel := raven.WARNING]>
  (<[logrus.ErrorLevel := raven.ERROR]>
  (<[logrus.FatalLevel := raven.FATAL]>
  (<[logrus.PanicLevel := raven.FATAL]> ∅))))).

(** ** Log entries and packets *)

(** [logrus.Entry]: the fields [Fire] reads.  [Time] is in nanoseconds. *)
Module Entry.
Record t := {
  Message : string;
  Time : Z;
  Level : logrus.Level;
  Data : gmap string iface
}.
End Entry.

(** [raven.Exception]. *)
Record Exception := {
  exValue : string;
  exType : string;
  exModule : string;
  exStacktrace : option Stacktrace
}.

(** [exc.Type = v] *)
Definition setExType (v : string) (exc : Exception) : Exception :=
  {| exValue := exValue exc; exType := v; exModule := exModule exc;
     exStacktrace := exStacktrace exc |}.

(** What [Fire] appends to [packet.Interfaces].  A [*raven.Stacktrace]
    stored in the interface may be the nil pointer. *)
Inductive Interface : Type :=
| IHttp (req : Http)
| IUser (user : User)
| IStacktrace (st : option Stacktrace)
| IException (exc : Exception).

(** [raven.Packet]: the fields [Fire] writes.  [Extra] is a Go map, [None]
    when nil. *)
Module Packet.
Record t := {
  Message : string;
  Timestamp : Z;
  Level : raven.Severity;
  Platform : string;
  ServerName : string;
  Logger : string;
  EventID : string;
  Tags : list (string * string);
  Fingerprint : list string;
  Culprit : string;
  Interfaces : list Interface;
  Extra : option (gmap string iface)
}.

Definition setTimestamp (v : Z) (p : t) : t :=
  {| Message := Message p; Timestamp := v; Level := Level p; Platform := Platform p;
     ServerName := ServerName p; Logger := Logger p; EventID := EventID p; Tags := Tags p;
     Fingerprint := Fingerprint p; Culprit := Culprit p; Interfaces := Interfaces p;
     Extra := Extra p |}.
Definition setLevel (v : raven.Severity) (p : t) : t :=
  {| Message := Message p; Timestamp := Timestamp p; Level := v; Platform := Platform p;
     ServerName := ServerName p; Logger := Logger p; EventID := EventID p; Tags := Tags p;
     Fingerprint := Fingerprint p; Culprit := Culprit p; Interfaces := Interfaces p;
     Extra := Extra p |}.
Definition setPlatform (v : string) (p : t) : t :=
  {| Message := Message p; Timestamp := Timestamp p; Level := Level p; Platform := v;
     ServerName := ServerName p; Logger := Logger p; EventID := EventID p; Tags := Tags p;
     Fingerprint := Fingerprint p; Culprit := Culprit p; Interfaces := Interfaces p;
     Extra := Extra p |}.
Definition setServerName (v : string) (p : t) : t :=
  {| Message := Message p; Timestamp := Timestamp p; Level := Level p; Platform := Platform p;
     ServerName := v; Logger := Logger p; EventID := EventID p; Tags := Tags p;
     Fingerprint := Fingerprint p; Culprit := Culprit p; Interfaces := Interfaces p;
     Extra := Extra p |}.
Definition setLogger (v : string) (p : t) : t :=
  {| Message := Message p; Timestamp := Timestamp p; Level := Level p; Platform := Platform p;
     ServerName := ServerName p; Logger := v; EventID := EventID p; Tags := Tags p;
     Fingerprint := Fingerprint p; Culprit := Culprit p; Interfaces := Interfaces p;
     Extra := Extra p |}.
Definition setEventID (v : string) (p : t) : t :=
  {| Message := Message p; Timestamp := Timestamp p; Level := Level p; Platform := Platform p;
     ServerName := ServerName p; Logger := Logger p; EventID := v; Tags := Tags p;
     Fingerprint := Fingerprint p; Culprit := Culprit p; Interfaces := Interfaces p;
     Extra := Extra p |}.
Definition setTags (v : list (string * string)) (p : t) : t :=
  {| Message := Message p; Timestamp := Timestamp p; Level := Level p; Platform := Platform p;
     ServerName := ServerName p; Logger := Logger p; EventID := EventID p; Tags := v;
     Fingerprint := Fingerprint p; Culprit := Culprit p; Interfaces := Interfaces p;
     Extra := Extra p |}.
Definition setFingerprint (v : list string) (p : t) : t :=
  {| Message := Message p; Timestamp := Timestamp p; Level := Level p; Platform := Platform p;
     ServerName := ServerName p; Logger := Logger p; EventID := EventID p; Tags := Tags p;
     Fingerprint := v; Culprit := Culprit p; Interfaces := Interfaces p;
     Extra := Extra p |}.
Definition setCulprit (v : string) (p : t) : t :=
  {| Message := Message p; Timestamp := Timestamp p; Level := Level p; Platform := Platform p;
     ServerName := ServerName p; Logger := Logger p; EventID := EventID p; Tags := Tags p;
     Fingerprint := Fingerprint p; Culprit := v; Interfaces := Interfaces p;
     Extra := Extra p |}.
Definition setInterfaces (v : list Interface) (p : t) : t :=
  {| Message := Message p; Timestamp := Timestamp p; Level := Level p; Platform := Platform p;
     ServerName := ServerName p; Logger := Logger p; EventID := EventID p; Tags := Tags p;
     Fingerprint := Fingerprint p; Culprit := Culprit p; Interfaces := v;
     Extra := Extra p |}.
Definition setExtra (v : option (gmap string iface)) (p : t) : t :=
  {| Message := Message p; Timestamp := Timestamp p; Level := Level p; Platform := Platform p;
     ServerName := ServerName p; Logger := Logger p; EventID := EventID p; Tags := Tags p;
     Fingerprint := Fingerprint p; Culprit := Culprit p; Interfaces := Interfaces p;
     Extra := v |}.

(** [packet.Interfaces = append(packet.Interfaces, x)] *)
Definition appendInterface (x : Interface) (p : t) : t :=
  setInterfaces (Interfaces p ++ [x]) p.
End Packet.

(** ** The hook *)

Record StackTraceConfiguration := {
  Enable : bool;
  Level : logrus.Level;
  Skip : Z;
  Context : Z;
  InAppPrefixes : list string;
  SendExceptionType : bool;
  SwitchExceptionTypeAndMessage : bool
}.

(** [*raven.Client], opaque to the hook. *)
Record Client := { clientDSN : string; clientTags : list (string * string) }.

(** [time.Duration] counts nanoseconds in an [int64]. *)
Definition Duration := Z.
Definition Millisecond : Duration := 1000000.

(** The [Hook] struct.  [ignoreFields] and [extraFilters] are Go maps
    ([None] is the nil map).  The lock [mu] and the wait group [wg] carry
    no data of their own; they show up as events of [Fire]. *)
Record Hook := {
  Timeout : Duration;
  StacktraceConfiguration : StackTraceConfiguration;
  client : option Client;
  levels : list logrus.Level;
  serverName : string;
  ignoreFields : option (gset string);
  extraFilters : option (gmap string (iface -> iface));
  asynchronous : bool
}.

(** ** Libraries the hook calls

    The Go runtime and raven-go are not part of the hook; their functions
    are taken as they are declared.  Two of them are methods the hook calls
    through a pointer that can be nil ([fn.FileLine] on the result of
    [runtime.FuncForPC], [currentStacktrace.Culprit]): whether such a call
    returns is up to the library, so they yield an [outcome]. *)
Class Library := {
  (** [runtime.FuncForPC]: nil when [pc] lies in no known function. *)
  runtime_FuncForPC : uintptr -> option Func;
  (** method [FileLine] of a [runtime.Func] pointer *)
  Func_FileLine : option Func -> uintptr -> outcome (string * Z);
  (** [raven.NewStacktraceFrame pc file line context appPackagePrefixes]:
      nil when the library builds no frame for this location. *)
  raven_NewStacktraceFrame :
    uintptr -> string -> Z -> Z -> list string -> option StacktraceFrame;
  (** [raven.NewStacktrace skip context appPackagePrefixes], captured from
      the stack of the goroutine running [Fire]; nil when no frame is left. *)
  raven_NewStacktrace : Z -> Z -> list string -> option Stacktrace;
  (** [raven.NewException] *)
  raven_NewException : error -> option Stacktrace -> Exception;
  (** method [Culprit] of a [raven.Stacktrace] pointer *)
  Stacktrace_Culprit : option Stacktrace -> outcome string;
  (** [raven.NewPacket message] *)
  raven_NewPacket : string -> Packet.t;
  (** [raven.New] and [raven.NewWithTags]: a client and an error. *)
  raven_New : string -> option Client * option error;
  raven_NewWithTags : string -> list (string * string) -> option Client * option error;
  (** [time.Duration.String], used by the [%s] verb. *)
  Duration_String : Duration -> string
}.

(** [errors.Cause] of pkg/errors: follow [Cause()] while the error has
    it; a nil cause gives nil. *)
Fixpoint errors_Cause (err : error) : option error :=
  match asCauser err with
  | Some (Some cause) => errors_Cause cause
  | Some None => None
  | None => Some err
  end.

(** [errors.New]: an error with a message and no further method. *)
Definition errors_New (msg : string) : error :=
  {| Error := msg; dynType := "*errors.errorString"; asStacktracer := None;
     asPkgErrorStackTracer := None; asCauser := None |}.

(** ** Stack-trace resolution *)

(** [s[i]] for a Go [int] index: [None] when out of range. *)
Definition index {A} (s : list A) (i : Z) : option A :=
  if (i <? 0)%Z then None else s !! Z.to_nat i.

(** The reversal loop of [convertStackTrace]:
    [for i, j := 0, len(frames)-1; i < j; i, j = i+1, j-1 { swap }]. *)
Equations? reverseLoop (frames : list StacktraceFrame) (i j : Z) :
  outcome (list StacktraceFrame) by wf (Z.to_nat (j - i)) lt :=
  reverseLoop frames i j with Z_lt_dec i j := {
    | right _ => Returned frames
    | left _ with index frames i, index frames j := {
      | Some fi, Some fj =>
          reverseLoop (<[Z.to_nat j := fi]> (<[Z.to_nat i := fj]> frames)) (i + 1) (j - 1)
      | _, _ => Panicked "index out of range" } }.
Proof. lia. Qed.

Section WithLibrary.
Context {lib : Library}.

(** One iteration of the first loop of [convertStackTrace]: the frame
    record of [pc], nil when the library builds none. *)
Definition convertFrame (stConfig : StackTraceConfiguration) (pc : Frame) :
  outcome (option StacktraceFrame) :=
  let fn := runtime_FuncForPC pc in
  '(file, line) ← Func_FileLine fn pc;
  mret (raven_NewStacktraceFrame pc file line (Context stConfig) (InAppPrefixes stConfig)).

(** [for i := range stFrames { ...; if frame != nil { frames = append(frames, frame) } }] *)
Fixpoint collectFrames (stConfig : StackTraceConfiguration) (stFrames : list Frame)
  (frames : list StacktraceFrame) : outcome (list StacktraceFrame) :=
  match stFrames with
  | [] => mret frames
  | pc :: rest =>
      frame ← convertFrame stConfig pc;
      collectFrames stConfig rest
        (match frame with Some f => frames ++ [f] | None => frames end)
  end.

Definition convertStackTrace (hook : Hook) (st : StackTrace) : outcome Stacktrace :=
  let stConfig := StacktraceConfiguration hook in
  let stFrames := default [] st in
  frames ← collectFrames stConfig stFrames [];
  frames ← reverseLoop frames 0 (Z.of_nat (length frames) - 1);
  mret {| Frames := frames |}.

(** Lines 310-316: what one link of the chain does to the two slots. *)
Definition capture (err : error) (slots : option Stacktrace * StackTrace) :
  option Stacktrace * StackTrace :=
  match asStacktracer err with
  | Some tracer => (tracer, None)
  | None =>
      match asPkgErrorStackTracer err with
      | Some tracer => (None, tracer)
      | None => slots
      end
  end.

(** The loop of [findStacktrace]: the two slots after the walk that
    starts at the non-nil [err]. *)
Fixpoint walkChain (err : error) (slots : option Stacktrace * StackTrace) :
  option Stacktrace * StackTrace :=
  let slots := capture err slots in
  match asCauser err with
  | Some (Some cause) => walkChain cause slots
  | Some None => slots
  | None => slots
  end.

Definition findStacktrace (hook : Hook) (err : error) : outcome (option Stacktrace) :=
  let '(stacktrace, stackErr) := walkChain err (None, None) in
  match stackErr with
  | Some _ => st ← convertStackTrace hook stackErr; mret (Some st)
  | None => mret stacktrace
  end.

End WithLibrary.

(** ** The field view of an entry *)

(** Modelled from the spec: the [dataField] struct of data_field.go, which
    is not among the sources; a view that holds nothing but the entry's
    field mapping. *)
Record dataField := { data : gmap string iface }.

(** Modelled from the spec: [newDataField] of data_field.go. *)
Definition newDataField (fields : gmap string iface) : dataField := {| data := fields |}.

(** The methods of [dataField] that [Fire] and [formatExtraData] call.
    A Go result pair [(v, ok)] is an [option].  [isOmit] is asked once all
    getters have run. *)
Class FieldView := {
  getLogger : dataField -> option string;
  getServerName : dataField -> option string;
  getEventID : dataField -> option string;
  getTags : dataField -> option (list (string * string));
  getFingerprint : dataField -> option (list string);
  getHTTPRequest : dataField -> option Http;
  getUser : dataField -> option User;
  getError : dataField -> option error;
  isOmit : dataField -> string -> bool
}.

(** ** Extra data *)

(** [formatData]: the type switch tries [json.Marshaler], [error] and
    [fmt.Stringer] in this order. *)
Definition formatData (value : iface) : iface :=
  if asMarshaler value then value
  else match asError value with
       | Some e => ofString (Error e)
       | None =>
           match asStringer value with
           | Some s => ofString s
           | None => value
           end
       end.

(** [_, ok := m[k]] on a set kept as a Go map; a nil map has no key. *)
Definition hasKey (m : option (gset string)) (k : string) : bool :=
  match m with
  | Some s => bool_decide (k ∈ s)
  | None => false
  end.

(** [fn, ok := m[k]] on a Go map; a nil map has no key. *)
Definition goLookup {V} (m : option (gmap string V)) (k : string) : option V :=
  match m with
  | Some m => m !! k
  | None => None
  end.

Section WithView.
Context {lib : Library} {view : FieldView}.

(** One iteration of the loop of [formatExtraData]. *)
Definition formatEntry (hook : Hook) (df : dataField) (k : string) (v : iface)
  (result : gmap string iface) : gmap string iface :=
  if isOmit df k then result
  else if hasKey (ignoreFields hook) k then result
  else
    let v := match goLookup (extraFilters hook) k with
             | Some fn => fn v
             | None => formatData v
             end in
    <[k := v]> result.

Definition formatExtraData (hook : Hook) (df : dataField) : gmap string iface :=
  map_fold (formatEntry hook df) ∅ (data df).

(** ** Fire, step by step *)

(** Lines 187-190: the fresh packet. *)
Definition seedPacket (entry : Entry.t) : Packet.t :=
  let packet := raven_NewPacket (Entry.Message entry) in
  let packet := Packet.setTimestamp (Entry.Time entry) packet in
  let packet := Packet.setLevel (default EmptyString (severityMap !! Entry.Level entry)) packet in
  Packet.setPlatform "go" packet.

Definition applyField {A} (field : option A) (set : A -> Packet.t -> Packet.t)
  (packet : Packet.t) : Packet.t :=
  match field with
  | Some v => set v packet
  | None => packet
  end.

(** Lines 194-218: "set special fields". *)
Definition setSpecialFields (hook : Hook) (df : dataField) (packet : Packet.t) : Packet.t :=
  let packet :=
    if String.eqb (serverName hook) EmptyString then packet
    else Packet.setServerName (serverName hook) packet in
  let packet := applyField (getLogger df) Packet.setLogger packet in
  let packet := applyField (getServerName df) Packet.setServerName packet in
  let packet := applyField (getEventID df) Packet.setEventID packet in
  let packet := applyField (getTags df) Packet.setTags packet in
  let packet := applyField (getFingerprint df) Packet.setFingerprint packet in
  let packet := applyField (getHTTPRequest df)
                  (fun req => Packet.appendInterface (IHttp req)) packet in
  applyField (getUser df) (fun user => Packet.appendInterface (IUser user)) packet.

(** The condition of line 222. *)
Definition stacktraceWanted (hook : Hook) (entry : Entry.t) : bool :=
  let stConfig := StacktraceConfiguration hook in
  Enable stConfig && (Entry.Level entry <=? Level stConfig)%N.

(** Lines 224-228: the trace of the error, or a fresh one. *)
Definition currentStacktraceOf (hook : Hook) (err : error) : outcome (option Stacktrace) :=
  let stConfig := StacktraceConfiguration hook in
  currentStacktrace ← findStacktrace hook err;
  match currentStacktrace with
  | None =>
      mret (raven_NewStacktrace (Skip stConfig) (Context stConfig) (InAppPrefixes stConfig))
  | Some _ => mret currentStacktrace
  end.

(** Lines 229-236: the exception descriptor. *)
Definition exceptionOf (hook : Hook) (err : error) (currentStacktrace : option Stacktrace) :
  Exception :=
  let stConfig := StacktraceConfiguration hook in
  let cause := default err (errors_Cause err) in
  let exc := raven_NewException cause currentStacktrace in
  if SendExceptionType stConfig then exc else setExType EmptyString exc.

(** Lines 223-243: the branch taken when the condition holds and the
    entry has an error. *)
Definition setException (hook : Hook) (err : error) (packet : Packet.t) : outcome Packet.t :=
  let stConfig := StacktraceConfiguration hook in
  currentStacktrace ← currentStacktraceOf hook err;
  let exc := exceptionOf hook err currentStacktrace in
  if SwitchExceptionTypeAndMessage stConfig then
    let packet := Packet.appendInterface (IStacktrace currentStacktrace) packet in
    culprit ← Stacktrace_Culprit currentStacktrace;
    mret (Packet.setCulprit (exType exc +:+ ": " +:+ culprit) packet)
  else
    let packet := Packet.appendInterface (IException exc) packet in
    mret (Packet.setCulprit (Error err) packet).

(** Lines 220-255: "set stacktrace data". *)
Definition setStacktraceData (hook : Hook) (entry : Entry.t) (df : dataField)
  (packet : Packet.t) : outcome Packet.t :=
  let stConfig := StacktraceConfiguration hook in
  if stacktraceWanted hook entry then
    match getError df with
    | Some err => setException hook err packet
    | None =>
        match raven_NewStacktrace (Skip stConfig) (Context stConfig) (InAppPrefixes stConfig) with
        | Some st => mret (Packet.appendInterface (IStacktrace (Some st)) packet)
        | None => mret packet
        end
    end
  else
    match getError df with
    | Some err => mret (Packet.setCulprit (Error err) packet)
    | None => mret packet
    end.

(** [for k, v := range dataExtra { packet.Extra[k] = v }] *)
Definition mergeExtra (extra dataExtra : gmap string iface) : gmap string iface :=
  map_fold (fun k v (acc : gmap string iface) => <[k := v]> acc) extra dataExtra.

(** Lines 257-265: "set other fields". *)
Definition setOtherFields (hook : Hook) (df : dataField) (packet : Packet.t) : Packet.t :=
  let dataExtra := formatExtraData hook df in
  match Packet.Extra packet with
  | None => Packet.setExtra (Some dataExtra) packet
  | Some extra => Packet.setExtra (Some (mergeExtra extra dataExtra)) packet
  end.

(** Lines 187-265: the packet handed to the client. *)
Definition buildPacket (hook : Hook) (entry : Entry.t) : outcome Packet.t :=
  let packet := seedPacket entry in
  let df := newDataField (Entry.Data entry) in
  let packet := setSpecialFields hook df packet in
  packet ← setStacktraceData hook entry df packet;
  mret (setOtherFields hook df packet).

(** ** Delivery

    What [Fire] does with the lock, the wait group, the client and the
    channels is recorded as a trace of events.  Which case of the
    [select] of lines 284-289 is taken, and what the error channel
    yields, is decided outside the hook: it is an input. *)
Inductive selected : Type :=
| FromErrCh (err : option error)
| FromTimeoutCh.

Inductive event : Type :=
| EvRLock
| EvRUnlock
| EvLock
| EvUnlock
| EvCapture (packet : Packet.t)
| EvWgAdd (delta : Z)
| EvGo
| EvWgWait
| EvTimeAfter (d : Duration)
| EvSelect.

(** [fmt.Errorf("no response from sentry server in %s", timeout)] *)
Definition timeoutError (timeout : Duration) : error :=
  errors_New ("no response from sentry server in " +:+ Duration_String timeout).

(** Lines 267-290.  [EvGo] is the goroutine that receives from the error
    channel, prints a non-nil error and calls [wg.Done]. *)
Definition deliver (hook : Hook) (packet : Packet.t) (sel : selected) :
  option error * list event :=
  if asynchronous hook then
    (None, [EvCapture packet; EvWgAdd 1; EvGo])
  else if (Timeout hook =? 0)%Z then
    (None, [EvCapture packet])
  else
    let timeout := Timeout hook in
    match sel with
    | FromErrCh err => (err, [EvCapture packet; EvTimeAfter timeout; EvSelect])
    | FromTimeoutCh =>
        (Some (timeoutError timeout), [EvCapture packet; EvTimeAfter timeout; EvSelect])
    end.

(** [Fire]: the read lock is held from the first line to the return. *)
Definition Fire (hook : Hook) (entry : Entry.t) (sel : selected) :
  outcome (option error * list event) :=
  packet ← buildPacket hook entry;
  let '(err, evs) := deliver hook packet sel in
  mret (err, EvRLock :: evs ++ [EvRUnlock]).

(** [Flush] *)
Definition Flush (hook : Hook) : list event :=
  if asynchronous hook then [EvLock; EvWgWait; EvUnlock] else [].

(** ** Constructors *)

Definition NewWithClientHook (client : option Client) (levels : list logrus.Level) :
  option Hook * option error :=
  (Some {| Timeout := 100 * Millisecond;
           StacktraceConfiguration :=
             {| Enable := false;
                Level := logrus.ErrorLevel;
                Skip := 5;
                Context := 0;
                InAppPrefixes := [];
                SendExceptionType := true;
                SwitchExceptionTypeAndMessage := false |};
           client := client;
           levels := levels;
           serverName := EmptyString;
           ignoreFields := Some ∅;
           extraFilters := Some ∅;
           asynchronous := false |},
   None).

Definition NewHook (DSN : string) (levels : list logrus.Level) : option Hook * option error :=
  let '(client, err) := raven_New DSN in
  match err with
  | Some e => (None, Some e)
  | None => NewWithClientHook client levels
  end.

Definition NewWithTagsHook (DSN : string) (tags : list (string * string))
  (levels : list logrus.Level) : option Hook * option error :=
  let '(client, err) := raven_NewWithTags DSN tags in
  match err with
  | Some e => (None, Some e)
  | None => NewWithClientHook client levels
  end.

Definition setAsynchronous (v : bool) (hook : Hook) : Hook :=
  {| Timeout := Timeout hook;
     StacktraceConfiguration := StacktraceConfiguration hook;
     client := client hook;
     levels := levels hook;
     serverName := serverName hook;
     ignoreFields := ignoreFields hook;
     extraFilters := extraFilters hook;
     asynchronous := v |}.

Definition setAsync (hook : option Hook) : option Hook :=
  match hook with
  | None => None
  | Some hook => Some (setAsynchronous true hook)
  end.

Definition NewAsyncHook (DSN : string) (levels : list logrus.Level) :
  option Hook * option error :=
  let '(hook, err) := NewHook DSN levels in
  (setAsync hook, err).

Definition NewAsyncWithTagsHook (DSN : string) (tags : list (string * string))
  (levels : list logrus.Level) : option Hook * option error :=
  let '(hook, err) := NewWithTagsHook DSN tags levels in
  (setAsync hook, err).

Definition NewAsyncWithClientHook (client : option Client) (levels : list logrus.Level) :
  option Hook * option error :=
  let '(hook, err) := NewWithClientHook client levels in
  (setAsync hook, err).

(** [New]: the factory function. *)
Definition New (dsn : string) : option Hook :=
  let '(hook, err) :=
    NewHook dsn [logrus.PanicLevel; logrus.FatalLevel; logrus.ErrorLevel] in
  match err with
  | None => hook
  | Some _ => None
  end.

End WithView.

(** ** The field view described by the specification *)

Definition fieldString (v : iface) : option string :=
  match goValue v with DString s => Some s | _ => None end.
Definition fieldPairs (v : iface) : option (list (string * string)) :=
  match goValue v with DPairs l => Some l | _ => None end.
Definition fieldStrings (v : iface) : option (list string) :=
  match goValue v with DStrings l => Some l | _ => None end.
Definition fieldHttp (v : iface) : option Http :=
  match goValue v with DHttp r => Some r | _ => None end.
Definition fieldUser (v : iface) : option User :=
  match goValue v with DUser u => Some u | _ => None end.

Definition wellKnownFields : list string :=
  ["logger"; "server_name"; "event_id"; "tags"; "fingerprint"; "http_request"; "user"; "error"].

(** Modelled from the spec: the methods of [dataField] (data_field.go is
    not among the sources).  Each getter answers "present and well-typed"
    with the typed value; [isOmit] holds exactly of the eight well-known
    names. *)
Definition specView : FieldView := {|
  getLogger df := data df !! "logger" ≫= fieldString;
  getServerName df := data df !! "server_name" ≫= fieldString;
  getEventID df := data df !! "event_id" ≫= fieldString;
  getTags df := data df !! "tags" ≫= fieldPairs;
  getFingerprint df := data df !! "fingerprint" ≫= fieldStrings;
  getHTTPRequest df := data df !! "http_request" ≫= fieldHttp;
  getUser df := data df !! "user" ≫= fieldUser;
  getError df := data df !! "error" ≫= asError;
  isOmit df key := bool_decide (key ∈ wellKnownFields)
|}.

(** ** A library instance to run the model on

    A Go runtime with three functions in its symbol table and a raven-go
    that follows the library's documented behaviour where the hook depends
    on it: [FuncForPC] is nil outside the table, [FileLine] and [Culprit]
    dereference their receiver, [NewStacktraceFrame] builds no frame for
    [runtime.goexit], [NewStacktrace] is nil once every frame is skipped,
    [NewPacket] seeds the extra data with facts about the runtime. *)
Module Bench.

Definition symbols : list (uintptr * (string * string * string * Z)) :=
  [ (4096%N, ("main", "main", "/app/main.go", 12));
    (8192%N, ("app/store", "Load", "/app/store/load.go", 40));
    (12288%N, ("runtime", "goexit", "/go/src/runtime/asm_amd64.s", 1650)) ].

Definition symbolOf (pc : uintptr) : option (string * string * string * Z) :=
  snd <$> List.find (fun s => (fst s =? pc)%N) symbols.

Definition FuncForPC (pc : uintptr) : option Func :=
  match symbolOf pc with
  | Some (m, f, _, _) => Some {| funcName := m +:+ "." +:+ f; funcEntry := pc |}
  | None => None
  end.

Definition FileLine (fn : option Func) (pc : uintptr) : outcome (string * Z) :=
  match fn with
  | None => Panicked "invalid memory address or nil pointer dereference"
  | Some _ =>
      match symbolOf pc with
      | Some (_, _, file, line) => Returned (file, line)
      | None => Returned ("?", 0)
      end
  end.

Definition inApp (prefixes : list string) (module : string) : bool :=
  existsb (fun p => String.prefix p module) prefixes.

Definition NewStacktraceFrame (pc : uintptr) (file : string) (line context : Z)
  (prefixes : list string) : option StacktraceFrame :=
  let '(m, f) := match symbolOf pc with
                 | Some (m, f, _, _) => (m, f)
                 | None => (EmptyString, EmptyString)
                 end in
  if String.eqb m "runtime" && String.eqb f "goexit" then None
  else Some {| Filename := file; Function := f; FrameModule := m;
               AbsolutePath := file; Lineno := line; InApp := inApp prefixes m |}.

(** The callers of [raven.NewStacktrace] inside [Fire], innermost first. *)
Definition callers : list uintptr := [8192%N; 4096%N; 12288%N].

Definition frameOf (context : Z) (prefixes : list string) (pc : uintptr) :
  option StacktraceFrame :=
  match FileLine (FuncForPC pc) pc with
  | Returned (file, line) => NewStacktraceFrame pc file line context prefixes
  | Panicked _ => None
  end.

Definition NewStacktrace (skip context : Z) (prefixes : list string) : option Stacktrace :=
  let frames := omap (frameOf context prefixes) (drop (Z.to_nat skip) callers) in
  match frames with
  | [] => None
  | _ => Some {| Frames := rev frames |}
  end.

Definition NewException (err : error) (st : option Stacktrace) : Exception :=
  {| exValue := Error err; exType := dynType err; exModule := EmptyString;
     exStacktrace := st |}.

Fixpoint topInApp (frames : list StacktraceFrame) : string :=
  match frames with
  | [] => EmptyString
  | f :: rest =>
      if InApp f && negb (String.eqb (FrameModule f) EmptyString)
         && negb (String.eqb (Function f) EmptyString)
      then FrameModule f +:+ "." +:+ Function f
      else topInApp rest
  end.

Definition Culprit (st : option Stacktrace) : outcome string :=
  match st with
  | None => Panicked "invalid memory address or nil pointer dereference"
  | Some st => Returned (topInApp (rev (Frames st)))
  end.

Definition NewPacket (message : string) : Packet.t :=
  {| Packet.Message := message; Packet.Timestamp := 0; Packet.Level := EmptyString;
     Packet.Platform := EmptyString; Packet.ServerName := EmptyString;
     Packet.Logger := EmptyString; Packet.EventID := EmptyString; Packet.Tags := [];
     Packet.Fingerprint := []; Packet.Culprit := EmptyString; Packet.Interfaces := [];
     Packet.Extra := Some (<["runtime.Version" := ofString "go1.11"]>
                          (<["runtime.NumCPU" := ofString "8"]> ∅)) |}.

Definition connect (dsn : string) (tags : list (string * string)) :
  option Client * option error :=
  let c := {| clientDSN := dsn; clientTags := tags |} in
  if String.prefix "https://" dsn then (Some c, None)
  else (Some c, Some (errors_New "raven: dsn missing public key and/or password")).

(** Whole milliseconds and whole seconds, as [time.Duration] prints them;
    other durations are shown in nanoseconds. *)
Definition DurationString (d : Duration) : string :=
  let digits (n : Z) := pretty n in
  if (d =? 0)%Z then "0s"
  else if (0 <? d)%Z && (d mod 1000000000 =? 0)%Z && (d <? 60000000000)%Z
       then digits (d / 1000000000) +:+ "s"
  else if (0 <? d)%Z && (d mod 1000000 =? 0)%Z && (d <? 1000000000)%Z
       then digits (d / 1000000) +:+ "ms"
  else digits d +:+ "ns".

(** A hook as the constructors leave it, with the switches the examples
    need: stack traces on or off, type and message switched or not, the
    number of skipped frames, the mode and the timeout. *)
Definition hookWith (enable switch : bool) (skip : Z) (async : bool) (timeout : Duration) :
  Hook :=
  {| Timeout := timeout;
     StacktraceConfiguration :=
       {| Enable := enable; Level := logrus.ErrorLevel; Skip := skip; Context := 0;
          InAppPrefixes := ["app"]; SendExceptionType := true;
          SwitchExceptionTypeAndMessage := switch |};
     client := Some {| clientDSN := "https://key@sentry.example/1"; clientTags := [] |};
     levels := [logrus.PanicLevel; logrus.FatalLevel; logrus.ErrorLevel];
     serverName := EmptyString;
     ignoreFields := Some ∅;
     extraFilters := Some ∅;
     asynchronous := async |}.

Definition hook : Hook := hookWith false false 5 false (100 * Millisecond).

(** Errors for the examples: a plain one, one that carries a pkg/errors
    trace (Load called from main), one whose [StackTrace] is the nil
    slice, and wrappers around a cause. *)
Definition plain (msg : string) : error :=
  {| Error := msg; dynType := "MyError"; asStacktracer := None;
     asPkgErrorStackTracer := None; asCauser := None |}.

Definition traced (msg : string) (raw : StackTrace) : error :=
  {| Error := msg; dynType := "*errors.fundamental"; asStacktracer := None;
     asPkgErrorStackTracer := Some raw; asCauser := None |}.

Definition wrap (msg : string) (cause : error) : error :=
  {| Error := msg +:+ ": " +:+ Error cause; dynType := "*errors.withMessage";
     asStacktracer := None; asPkgErrorStackTracer := None; asCauser := Some (Some cause) |}.

Definition wrapDirect (msg : string) (st : option Stacktrace) (cause : error) : error :=
  {| Error := msg +:+ ": " +:+ Error cause; dynType := "*app.tracedError";
     asStacktracer := Some st; asPkgErrorStackTracer := None; asCauser := Some (Some cause) |}.

Definition handlerFrame : StacktraceFrame :=
  {| Filename := "handler.go"; Function := "Serve"; FrameModule := "app/web";
     AbsolutePath := "/app/web/handler.go"; Lineno := 77; InApp := true |}.

Definition library : Library := {|
  runtime_FuncForPC := FuncForPC;
  Func_FileLine := FileLine;
  raven_NewStacktraceFrame := NewStacktraceFrame;
  raven_NewStacktrace := NewStacktrace;
  raven_NewException := NewException;
  Stacktrace_Culprit := Culprit;
  raven_NewPacket := NewPacket;
  raven_New dsn := connect dsn [];
  raven_NewWithTags := connect;
  Duration_String := DurationString
|}.

End Bench.

(** ** The remaining methods of the hook *)

Definition setServerNameField (v : string) (hook : Hook) : Hook :=
  {| Timeout := Timeout hook;
     StacktraceConfiguration := StacktraceConfiguration hook;
     client := client hook;
     levels := levels hook;
     serverName := v;
     ignoreFields := ignoreFields hook;
     extraFilters := extraFilters hook;
     asynchronous := asynchronous hook |}.

Definition setIgnoreFields (v : option (gset string)) (hook : Hook) : Hook :=
  {| Timeout := Timeout hook;
     StacktraceConfiguration := StacktraceConfiguration hook;
     client := client hook;
     levels := levels hook;
     serverName := serverName hook;
     ignoreFields := v;
     extraFilters := extraFilters hook;
     asynchronous := asynchronous hook |}.

Definition setExtraFilters (v : option (gmap string (iface -> iface))) (hook : Hook) : Hook :=
  {| Timeout := Timeout hook;
     StacktraceConfiguration := StacktraceConfiguration hook;
     client := client hook;
     levels := levels hook;
     serverName := serverName hook;
     ignoreFields := ignoreFields hook;
     extraFilters := v;
     asynchronous := asynchronous hook |}.

(** [Levels] *)
Definition Levels (hook : Hook) : list logrus.Level := levels hook.

(** [SetServerName] *)
Definition SetServerName (hook : Hook) (name : string) : Hook :=
  setServerNameField name hook.

(** [AddIgnore]: [hook.ignoreFields[name] = struct{}{}].  Go panics on an
    assignment to an entry of a nil map. *)
Definition AddIgnore (hook : Hook) (name : string) : outcome Hook :=
  match ignoreFields hook with
  | None => Panicked "assignment to entry in nil map"
  | Some fields => Returned (setIgnoreFields (Some ({[name]} ∪ fields)) hook)
  end.

(** [AddExtraFilter]: [hook.extraFilters[name] = fn]. *)
Definition AddExtraFilter (hook : Hook) (name : string) (fn : iface -> iface) : outcome Hook :=
  match extraFilters hook with
  | None => Panicked "assignment to entry in nil map"
  | Some filters => Returned (setExtraFilters (Some (<[name := fn]> filters)) hook)
  end.

(** [Verify]: the receiver is not used. *)
Definition Verify {lib : Library} (hook : Hook) (dsn : string) : bool :=
  let '(_, err) :=
    NewHook dsn [logrus.PanicLevel; logrus.FatalLevel; logrus.ErrorLevel] in
  match err with
  | None => true
  | Some _ => false
  end.

(** The innermost link of the chain of [err]. *)
Fixpoint innermost (err : error) : error :=
  match asCauser err with
  | Some (Some cause) => innermost cause
  | _ => err
  end.

(** An optional interface, as the list of what gets appended. *)
Definition appended {A} (field : option A) (wrap : A -> Interface) : list Interface :=
  match field with
  | Some v => [wrap v]
  | None => []
  end.

(** * The Airbrake hook (airbrake/airbrake.go)

    The hook hands every entry to a [gobrake.Notifier].  gobrake, the [%s]
    verb of [fmt] and the order in which Go ranges over a map are taken as
    they are given: an interface, [Gobrake].  A field that holds a
    [*http.Request] is a [DHttp] datum. *)
Module airbrake.

(** [gobrake.Notice]: the errors it reports and the context map, the one
    part the hook writes. *)
Record Notice := {
  Errors : list (string * string);
  Context : gmap string iface
}.

(** [notice.Context = v] *)
Definition setContext (v : gmap string iface) (notice : Notice) : Notice :=
  {| Errors := Errors notice; Context := v |}.

Class Gobrake := {
  (** [*gobrake.Notifier] *)
  Notifier : Type;
  (** [gobrake.NewNotifier projectID apiKey] *)
  gobrake_NewNotifier : Z -> string -> Notifier;
  (** method [AddFilter] *)
  gobrake_AddFilter : Notifier -> (Notice -> option Notice) -> Notifier;
  (** method [Notice err req depth]: a notice with a context map *)
  gobrake_Notice : Notifier -> error -> option Http -> Z -> Notice;
  (** [fmt.Sprintf("%s", v)] *)
  fmt_Sprintf_s : iface -> string;
  (** the order in which [range] visits a map: each entry once *)
  rangeOrder : gmap string iface -> list (string * iface);
  rangeOrder_enumerates : forall m, rangeOrder m ≡ₚ map_to_list m
}.

Section WithGobrake.
Context {gobrake : Gobrake}.

Record airbrakeHook := { Airbrake : Notifier }.

(** The filter [NewHook] installs. *)
Definition environmentFilter (env : string) (notice : Notice) : option Notice :=
  if String.eqb env "development" then None
  else Some (setContext (<["environment" := ofString env]> (Context notice)) notice).

Definition NewHook (projectID : Z) (apiKey env : string) : airbrakeHook :=
  let airbrake := gobrake_NewNotifier projectID apiKey in
  let airbrake := gobrake_AddFilter airbrake (environmentFilter env) in
  {| Airbrake := airbrake |}.

(** The type assertion of [v] to a request pointer. *)
Definition asRequest (v : iface) : option Http :=
  match goValue v with
  | DHttp r => Some r
  | _ => None
  end.

(** The first loop of [Fire]: the first entry, in the order of the range,
    that holds a request. *)
Fixpoint findRequest (fields : list (string * iface)) : option (string * Http) :=
  match fields with
  | [] => None
  | (k, v) :: rest =>
      match asRequest v with
      | Some r => Some (k, r)
      | None => findRequest rest
      end
  end.

(** The body of the second loop: [notice.Context[k] = fmt.Sprintf("%s", v)]. *)
Definition writeContext (notice : Notice) (field : string * iface) : Notice :=
  setContext (<[fst field := ofString (fmt_Sprintf_s (snd field))]> (Context notice)) notice.

(** What a call of [Fire] leaves behind: the entry's fields (the map is
    changed in place), the notice passed to [SendNotice], and the value
    returned. *)
Record fired := {
  dataAfter : gmap string iface;
  sent : Notice;
  returned : option error
}.

(** Lines 36-42: the error the notice is about. *)
Definition notifyError (entry : Entry.t) : error :=
  match Entry.Data entry !! "error" ≫= asError with
  | Some err => err
  | None => errors_New (Entry.Message entry)
  end.

(** Lines 43-50: the request, and the fields once the loop has run. *)
Definition takeRequest (fields : gmap string iface) : option Http * gmap string iface :=
  match findRequest (rangeOrder fields) with
  | Some (k, r) => (Some r, delete k fields)
  | None => (None, fields)
  end.

Definition Fire (hook : airbrakeHook) (entry : Entry.t) : fired :=
  let notifyErr := notifyError entry in
  let '(req, fields) := takeRequest (Entry.Data entry) in
  let notice := gobrake_Notice (Airbrake hook) notifyErr req 3 in
  let notice := foldl writeContext notice (rangeOrder fields) in
  {| dataAfter := fields; sent := notice; returned := None |}.

Definition Levels (hook : airbrakeHook) : list logrus.Level :=
  [logrus.ErrorLevel; logrus.FatalLevel; logrus.PanicLevel].

End WithGobrake.

(** A gobrake to run the model on: notices start with the language in
    their context (and the URL of the request, if any), [%s] prints a
    string as it is, an error as its message and a [fmt.Stringer] as its
    [String()], and maps are ranged over in the order of [map_to_list]. *)
Definition benchSprintf (v : iface) : string :=
  match asError v, asStringer v, goValue v with
  | Some e, _, _ => Error e
  | None, Some s, _ => s
  | None, None, DString s => s
  | None, None, DOther typ repr => repr
  | None, None, _ => "%!s(?)"
  end.

Definition benchNotice (err : error) (req : option Http) : Notice :=
  {| Errors := [(dynType err, Error err)];
     Context :=
       match req with
       | Some r => <["url" := ofString (httpURL r)]> (<["language" := ofString "go1.11"]> ∅)
       | None => <["language" := ofString "go1.11"]> ∅
       end |}.

Definition benchGobrake : Gobrake := {|
  Notifier := list (Notice -> option Notice);
  gobrake_NewNotifier projectID apiKey := [];
  gobrake_AddFilter notifier filter := notifier ++ [filter];
  gobrake_Notice notifier err req depth := benchNotice err req;
  fmt_Sprintf_s := benchSprintf;
  rangeOrder := map_to_list;
  rangeOrder_enumerates m := reflexivity (map_to_list m)
|}.

End airbrake.

(** ** Vocabulary of the properties *)

(** The links the loop of [findStacktrace] visits, outermost first. *)
Fixpoint chain (err : error) : list error :=
  err :: match asCauser err with
         | Some (Some cause) => chain cause
         | _ => []
         end.

(** A link with neither [GetStacktrace] nor [StackTrace]. *)
Definition exposesNothing (e : error) : Prop :=
  asStacktracer e = None /\ asPkgErrorStackTracer e = None.

(** A link with [StackTrace] (yielding [st]) and without [GetStacktrace]. *)
Definition exposesForeign (e : error) (st : StackTrace) : Prop :=
  asStacktracer e = None /\ asPkgErrorStackTracer e = Some st.

(** The frame record the library builds for [pc] once its location is
    known to be [loc pc]; [None] when it builds none. *)
Definition frameRecord {lib : Library} (hook : Hook) (loc : Frame -> string * Z)
  (pc : Frame) : option StacktraceFrame :=
  raven_NewStacktraceFrame pc (fst (loc pc)) (snd (loc pc))
    (Context (StacktraceConfiguration hook)) (InAppPrefixes (StacktraceConfiguration hook)).

(** The raw frames that get a record, and those that get none, both in
    input order. *)
Definition keptFrames {lib : Library} (hook : Hook) (loc : Frame -> string * Z)
  (raw : list Frame) : list StacktraceFrame :=
  omap (frameRecord hook loc) raw.

Definition droppedFrames {lib : Library} (hook : Hook) (loc : Frame -> string * Z)
  (raw : list Frame) : list Frame :=
  List.filter (fun pc => match frameRecord hook loc pc with None => true | Some _ => false end) raw.

(** The value [formatExtraData] stores for a field it keeps: lines 393-397. *)
Definition formatted (hook : Hook) (k : string) (v : iface) : iface :=
  match goLookup (extraFilters hook) k with
  | Some fn => fn v
  | None => formatData v
  end.

(** The severity table as the specification words it. *)
Definition severityTable (level : logrus.Level) : raven.Severity :=
  match level with
  | 5%N => raven.DEBUG
  | 4%N => raven.INFO
  | 3%N => raven.WARNING
  | 2%N => raven.ERROR
  | 1%N => raven.FATAL
  | 0%N => raven.FATAL
  | _ => EmptyString
  end.

(** Stack-trace and exception interfaces, as opposed to request and user. *)
Definition isTraceOrException (x : Interface) : bool :=
  match x with
  | IStacktrace _ | IException _ => true
  | IHttp _ | IUser _ => false
  end.

(** The configuration every constructor starts from. *)
Definition defaultConfiguration (hook : Hook) : Prop :=
  Timeout hook = 100000000 /\
  StacktraceConfiguration hook =
    {| Enable := false; Level := logrus.ErrorLevel; Skip := 5; Context := 0;
       InAppPrefixes := []; SendExceptionType := true;
       SwitchExceptionTypeAndMessage := false |} /\
  ignoreFields hook = Some ∅ /\
  extraFilters hook = Some ∅.

(** What a constructor promises: whenever it returns a hook, it returns no
    error, and the hook has the default configuration and the given mode. *)
Definition constructs (result : option Hook * option error) (async : bool) : Prop :=
  forall hook,
    fst result = Some hook ->
    snd result = None /\ defaultConfiguration hook /\ asynchronous hook = async.

(** Two hooks that differ in nothing but the mode: the first synchronous,
    the second asynchronous. *)
Definition differOnlyInMode (sync async : Hook) : Prop :=
  asynchronous sync = false /\ asynchronous async = true /\
  Timeout async = Timeout sync /\
  StacktraceConfiguration async = StacktraceConfiguration sync /\
  client async = client sync /\
  levels async = levels sync /\
  serverName async = serverName sync /\
  ignoreFields async = ignoreFields sync /\
  extraFilters async = extraFilters sync.

(** The asynchronous constructor returns a hook exactly when the
    synchronous one does, and the two hooks differ only in the mode. *)
Definition asyncVariantOf (async sync : option Hook * option error) : Prop :=
  snd async = snd sync /\
  (forall hook, fst sync = Some hook ->
     exists hook', fst async = Some hook' /\ differOnlyInMode hook hook') /\
  (forall hook', fst async = Some hook' ->
     exists hook, fst sync = Some hook /\ differOnlyInMode hook hook').

(** A constructor's result is a hook without an error, or an error without
    a hook: never both, never neither. *)
Definition hookOrError (result : option Hook * option error) : Prop :=
  (exists hook, result = (Some hook, None)) \/ (exists e, result = (None, Some e)).

(** A call that changes a setting of the hook after construction. *)
Inductive setting : Type :=
| Ignore (name : string)
| Filter (name : string) (fn : iface -> iface).

Definition applySetting (hook : Hook) (s : setting) : outcome Hook :=
  match s with
  | Ignore name => AddIgnore hook name
  | Filter name fn => AddExtraFilter hook name fn
  end.

(** The calls of a list, one after the other. *)
Fixpoint applySettings (hook : Hook) (settings : list setting) : outcome Hook :=
  match settings with
  | [] => mret hook
  | s :: rest => hook' ← applySetting hook s; applySettings hook' rest
  end.

(** Is [name] ignored by one of the calls? *)
Definition ignores (settings : list setting) (name : string) : bool :=
  existsb (fun s => match s with
                    | Ignore n => String.eqb n name
                    | Filter _ _ => false
                    end) settings.

(** The filter the calls leave registered under [name]: the one of the last
    [AddExtraFilter] under that name, if there is one. *)
Fixpoint lastFilter (settings : list setting) (name : string) : option (iface -> iface) :=
  match settings with
  | [] => None
  | s :: rest =>
      match lastFilter rest name with
      | Some fn => Some fn
      | None =>
          match s with
          | Filter n fn => if String.eqb n name then Some fn else None
          | Ignore _ => None
          end
      end
  end.

(** Two hooks that agree in everything but the ignore set and the filters. *)
Definition sameButSettings (hook hook' : Hook) : Prop :=
  Timeout hook' = Timeout hook /\
  StacktraceConfiguration hook' = StacktraceConfiguration hook /\
  client hook' = client hook /\
  levels hook' = levels hook /\
  serverName hook' = serverName hook /\
  asynchronous hook' = asynchronous hook.

(** * Properties *)

(** ** The error monad *)

Lemma bind_returned {A B} (m : outcome A) (k : A -> outcome B) (b : B) :
  m ≫= k = Returned b -> exists a, m = Returned a /\ k a = Returned b.
Proof. destruct m as [a|r]; simpl; [eauto | discriminate]. Qed.

(** ** The reversal loop reverses *)

Lemma reverseLoop_body frames i j :
  reverseLoop frames i j =
  if Z_lt_dec i j then
    match index frames i, index frames j with
    | Some fi, Some fj =>
        reverseLoop (<[Z.to_nat j := fi]> (<[Z.to_nat i := fj]> frames)) (i + 1) (j - 1)
    | _, _ => Panicked "index out of range"
    end
  else Returned frames.
Proof.
  simp reverseLoop. destruct (Z_lt_dec i j) as [Hlt|Hge]; simpl; [|reflexivity].
  destruct (index frames i) as [fi|]; simpl; [|reflexivity].
  destruct (index frames j) as [fj|]; simpl; reflexivity.
Qed.

Lemma index_middle {A} (pre post : list A) (x : A) :
  index (pre ++ x :: post) (Z.of_nat (length pre)) = Some x.
Proof.
  unfold index. destruct (Z.ltb_spec (Z.of_nat (length pre)) 0); [lia|].
  rewrite Nat2Z.id. apply list_lookup_middle. reflexivity.
Qed.

Lemma index_second {A} (pre mid post : list A) (a b : A) :
  index (pre ++ a :: mid ++ b :: post) (Z.of_nat (length pre) + Z.of_nat (length mid) + 1)
  = Some b.
Proof.
  replace (pre ++ a :: mid ++ b :: post) with ((pre ++ a :: mid) ++ b :: post)
    by (rewrite <- app_assoc; reflexivity).
  replace (Z.of_nat (length pre) + Z.of_nat (length mid) + 1)
    with (Z.of_nat (length (pre ++ a :: mid)))
    by (rewrite length_app; simpl; lia).
  apply index_middle.
Qed.

Lemma swap_ends {A} (pre mid post : list A) (a b : A) :
  <[(length pre + S (length mid))%nat := a]>
    (<[length pre := b]> (pre ++ a :: mid ++ b :: post))
  = (pre ++ [b]) ++ mid ++ (a :: post).
Proof.
  rewrite insert_app_r_alt by lia. replace (length pre - length pre)%nat with 0%nat by lia.
  simpl. rewrite insert_app_r_alt by lia.
  replace (length pre + S (length mid) - length pre)%nat with (S (length mid)) by lia.
  simpl. rewrite insert_app_r_alt by lia. rewrite Nat.sub_diag. simpl.
  rewrite <- app_assoc. reflexivity.
Qed.

(** One round of the loop swaps the two ends and moves inwards. *)
Lemma reverseLoop_step (pre mid post : list StacktraceFrame) (a b : StacktraceFrame) :
  reverseLoop (pre ++ a :: mid ++ b :: post) (Z.of_nat (length pre))
    (Z.of_nat (length pre) + Z.of_nat (length mid) + 1)
  = reverseLoop ((pre ++ [b]) ++ mid ++ a :: post) (Z.of_nat (length pre) + 1)
      (Z.of_nat (length pre) + Z.of_nat (length mid)).
Proof.
  rewrite reverseLoop_body.
  destruct (Z_lt_dec _ _) as [_|Hge]; [|lia].
  rewrite index_middle, index_second.
  replace (Z.to_nat (Z.of_nat (length pre) + Z.of_nat (length mid) + 1))
    with (length pre + S (length mid))%nat by lia.
  rewrite Nat2Z.id, swap_ends. f_equal. lia.
Qed.

(** Started on the segment [mid] of a slice, the loop reverses that segment
    and leaves the rest alone. *)
Lemma reverseLoop_segment (n : nat) :
  forall (mid pre post : list StacktraceFrame),
    length mid = n ->
    reverseLoop (pre ++ mid ++ post) (Z.of_nat (length pre))
      (Z.of_nat (length pre) + Z.of_nat (length mid) - 1)
    = Returned (pre ++ rev mid ++ post).
Proof.
  induction n as [n IH] using lt_wf_ind. intros mid pre post Hn.
  destruct mid as [|a mid'].
  - rewrite reverseLoop_body. simpl. destruct (Z_lt_dec _ _); [lia | reflexivity].
  - destruct (exists_last (l := a :: mid')) as (m & b & Hm); [discriminate|].
    destruct m as [|a' m]; simpl in Hm; injection Hm as <- ->.
    + rewrite reverseLoop_body. simpl. destruct (Z_lt_dec _ _); [lia | reflexivity].
    + replace (pre ++ (a :: m ++ [b]) ++ post) with (pre ++ a :: m ++ b :: post)
        by (simpl; rewrite <- app_assoc; reflexivity).
      replace (Z.of_nat (length pre) + Z.of_nat (length (a :: m ++ [b])) - 1)
        with (Z.of_nat (length pre) + Z.of_nat (length m) + 1)
        by (simpl length; rewrite length_app; simpl; lia).
      rewrite reverseLoop_step.
      replace (Z.of_nat (length pre) + 1) with (Z.of_nat (length (pre ++ [b])))
        by (rewrite length_app; simpl; lia).
      replace (Z.of_nat (length pre) + Z.of_nat (length m))
        with (Z.of_nat (length (pre ++ [b])) + Z.of_nat (length m) - 1)
        by (rewrite length_app; simpl; lia).
      rewrite (IH (length m));
        [| simpl in Hn; rewrite length_app in Hn; simpl in Hn; lia | reflexivity].
      simpl. rewrite rev_app_distr. simpl. rewrite <- !app_assoc. reflexivity.
Qed.

Lemma reverseLoop_rev (frames : list StacktraceFrame) :
  reverseLoop frames 0 (Z.of_nat (length frames) - 1) = Returned (rev frames).
Proof.
  pose proof (reverseLoop_segment (length frames) frames [] [] eq_refl) as H.
  simpl in H. rewrite !app_nil_r in H. exact H.
Qed.

(** ** Conversion of a foreign-format trace *)

Section Conversion.
Context {lib : Library}.

Lemma collectFrames_returns (hook : Hook) (loc : Frame -> string * Z) (raw : list Frame) :
  (forall pc, In pc raw -> Func_FileLine (runtime_FuncForPC pc) pc = Returned (loc pc)) ->
  forall frames,
    collectFrames (StacktraceConfiguration hook) raw frames
    = Returned (frames ++ keptFrames hook loc raw).
Proof.
  induction raw as [|pc raw IH]; intros Hloc frames; simpl.
  - rewrite app_nil_r. reflexivity.
  - unfold convertFrame. rewrite (Hloc pc) by (left; reflexivity). simpl.
    destruct (loc pc) as [file line] eqn:Hpc. simpl.
    rewrite IH by (intros pc' Hin; apply Hloc; right; exact Hin).
    unfold keptFrames. simpl. unfold frameRecord at 2. rewrite Hpc. simpl.
    destruct (raven_NewStacktraceFrame pc file line _ _); simpl;
      [rewrite <- app_assoc|]; reflexivity.
Qed.

(** When every location lookup returns, the conversion returns the kept
    frames in reverse order. *)
Lemma convertStackTrace_returns (hook : Hook) (loc : Frame -> string * Z) (raw : list Frame) :
  (forall pc, In pc raw -> Func_FileLine (runtime_FuncForPC pc) pc = Returned (loc pc)) ->
  convertStackTrace hook (Some raw) = Returned {| Frames := rev (keptFrames hook loc raw) |}.
Proof.
  intros Hloc. unfold convertStackTrace. simpl.
  rewrite (collectFrames_returns hook loc raw Hloc). simpl.
  rewrite reverseLoop_rev. reflexivity.
Qed.

Lemma collectFrames_panics (stConfig : StackTraceConfiguration) (raw : list Frame)
  (pc : Frame) (reason : string) :
  In pc raw ->
  Func_FileLine (runtime_FuncForPC pc) pc = Panicked reason ->
  forall frames, exists reason', collectFrames stConfig raw frames = Panicked reason'.
Proof.
  induction raw as [|pc' raw IH]; intros Hin Hpanic frames; [destruct Hin|].
  simpl. destruct (convertFrame stConfig pc') as [frame|r] eqn:Hframe; simpl.
  - destruct Hin as [->|Hin].
    + unfold convertFrame in Hframe. rewrite Hpanic in Hframe. discriminate.
    + apply IH; assumption.
  - eauto.
Qed.

(** A location lookup that panics on one raw frame makes the whole
    conversion panic. *)
Lemma convertStackTrace_panics (hook : Hook) (raw : list Frame) (pc : Frame) (reason : string) :
  In pc raw ->
  Func_FileLine (runtime_FuncForPC pc) pc = Panicked reason ->
  exists reason', convertStackTrace hook (Some raw) = Panicked reason'.
Proof.
  intros Hin Hpanic. unfold convertStackTrace. simpl.
  destruct (collectFrames_panics (StacktraceConfiguration hook) raw pc reason Hin Hpanic [])
    as [r Hr].
  rewrite Hr. simpl. eauto.
Qed.

Lemma kept_dropped_length (hook : Hook) (loc : Frame -> string * Z) (raw : list Frame) :
  (length (keptFrames hook loc raw) + length (droppedFrames hook loc raw))%nat = length raw.
Proof.
  unfold keptFrames, droppedFrames.
  induction raw as [|pc raw IH]; [reflexivity|].
  cbn. destruct (frameRecord hook loc pc); cbn in IH |- *; lia.
Qed.

(** ** The walk along the chain *)

Lemma walkChain_foldl :
  forall err slots, walkChain err slots = foldl (fun s e => capture e s) slots (chain err).
Proof.
  fix IH 1. intros [msg typ tr ptr [[cause|]|]] slots; simpl.
  - apply IH.
  - reflexivity.
  - reflexivity.
Qed.

Lemma capture_nothing e slots : exposesNothing e -> capture e slots = slots.
Proof. intros [H1 H2]. unfold capture. rewrite H1, H2. reflexivity. Qed.

Lemma capture_foreign e st slots : exposesForeign e st -> capture e slots = (None, st).
Proof. intros [H1 H2]. unfold capture. rewrite H1, H2. reflexivity. Qed.

Lemma foldl_capture_nothing links slots :
  Forall exposesNothing links -> foldl (fun s e => capture e s) slots links = slots.
Proof.
  intros H. induction H as [|e links He _ IH] in slots |- *; simpl; [reflexivity|].
  rewrite capture_nothing by exact He. apply IH.
Qed.

(** The innermost link that exposes a trace decides: below a link with a
    foreign-format trace nothing is captured, above it anything may be. *)
Lemma walkChain_innermost_foreign err outer inner below st slots :
  chain err = outer ++ inner :: below ->
  exposesForeign inner st ->
  Forall exposesNothing below ->
  walkChain err slots = (None, st).
Proof.
  intros Hchain Hinner Hbelow. rewrite walkChain_foldl, Hchain, foldl_app. simpl.
  rewrite (capture_foreign _ st) by exact Hinner.
  apply foldl_capture_nothing. exact Hbelow.
Qed.

Lemma findStacktrace_innermost_foreign hook err outer inner below raw :
  chain err = outer ++ inner :: below ->
  exposesForeign inner (Some raw) ->
  Forall exposesNothing below ->
  findStacktrace hook err = st ← convertStackTrace hook (Some raw); mret (Some st).
Proof.
  intros Hchain Hinner Hbelow. unfold findStacktrace.
  rewrite (walkChain_innermost_foreign err outer inner below (Some raw) _ Hchain Hinner Hbelow).
  reflexivity.
Qed.

End Conversion.

(** ** Claims about the stack-trace resolver *)

(** C4, as amended.  Take a chain in which no link but the innermost
    exposes a trace, and the innermost exposes (only) a foreign-format
    trace.  When that trace is a non-nil slice [raw] of M frames whose
    location lookups all return, the resolver returns a trace; it has M
    frames minus those the library builds no record for; and its frame [i]
    is the record of kept input frame [count - 1 - i]: the kept frames in
    reverse order, oldest call first.  When that trace is the nil slice, the
    resolver returns no trace. *)
Theorem findStacktrace_innermost_foreign_reversed {lib : Library}
  (hook : Hook) (err inner : error) (outer : list error) :
  chain err = outer ++ [inner] ->
  Forall exposesNothing outer ->
  (forall (raw : list Frame) (loc : Frame -> string * Z),
      exposesForeign inner (Some raw) ->
      (forall pc, In pc raw -> Func_FileLine (runtime_FuncForPC pc) pc = Returned (loc pc)) ->
      exists st,
        findStacktrace hook err = Returned (Some st) /\
        length (Frames st) = (length raw - length (droppedFrames hook loc raw))%nat /\
        Frames st = rev (keptFrames hook loc raw) /\
        forall i, (i < length (Frames st))%nat ->
          Frames st !! i
          = keptFrames hook loc raw !! (length (keptFrames hook loc raw) - 1 - i)%nat) /\
  (exposesForeign inner None -> findStacktrace hook err = Returned None).
Proof.
  intros Hchain _. split.
  - intros raw loc Hinner Hloc.
    exists {| Frames := rev (keptFrames hook loc raw) |}.
    rewrite (findStacktrace_innermost_foreign hook err outer inner [] raw Hchain Hinner)
      by constructor.
    rewrite (convertStackTrace_returns hook loc raw Hloc). simpl.
    split; [reflexivity|]. split.
    + rewrite length_rev. pose proof (kept_dropped_length hook loc raw). lia.
    + split; [reflexivity|]. intros i Hi. rewrite length_rev in Hi.
      pose proof (reverse_lookup (keptFrames hook loc raw) i Hi) as Hrev.
      unfold reverse in Hrev. rewrite rev_alt, Hrev. f_equal. lia.
  - intros Hinner. unfold findStacktrace.
    rewrite (walkChain_innermost_foreign err outer inner [] None _ Hchain Hinner)
      by constructor.
    reflexivity.
Qed.

(** The amended C4 at work: a trace of three raw frames (Load, main,
    goexit) two links down the chain; goexit gets no record, and main comes
    out before Load. *)
Lemma findStacktrace_innermost_foreign_reversed_witness :
  exists st,
    findStacktrace (lib := Bench.library) Bench.hook
      (Bench.wrap "request" (Bench.wrap "load"
         (Bench.traced "disk" (Some [8192%N; 4096%N; 12288%N]))))
    = Returned (Some st) /\
    length (Frames st) = 2%nat /\
    Function <$> Frames st = ["main"; "Load"].
Proof.
  destruct (findStacktrace_innermost_foreign_reversed (lib := Bench.library) Bench.hook
              (Bench.wrap "request" (Bench.wrap "load"
                 (Bench.traced "disk" (Some [8192%N; 4096%N; 12288%N]))))
              (Bench.traced "disk" (Some [8192%N; 4096%N; 12288%N]))
              [Bench.wrap "request" (Bench.wrap "load"
                 (Bench.traced "disk" (Some [8192%N; 4096%N; 12288%N])));
               Bench.wrap "load" (Bench.traced "disk" (Some [8192%N; 4096%N; 12288%N]))])
    as [Hslice _].
  - reflexivity.
  - repeat constructor.
  - destruct (Hslice [8192%N; 4096%N; 12288%N]
                (fun pc => match Bench.symbolOf pc with
                           | Some (_, _, file, line) => (file, line)
                           | None => ("?", 0)
                           end))
      as (st & Hfind & Hlen & Hframes & _).
    + split; reflexivity.
    + intros pc [<-|[<-|[<-|[]]]]; reflexivity.
    + exists st. split; [exact Hfind|]. split; [exact Hlen|]. rewrite Hframes. reflexivity.
Defined.

(** C4 as stated fails when the innermost error's [StackTrace] is the nil
    slice (a trace of 0 raw frames): the resolver returns no trace at all,
    not a trace with 0 frames. *)
Lemma findStacktrace_nil_foreign_counterexample :
  let inner := Bench.traced "disk" None in
  let err := Bench.wrap "load" inner in
  chain err = [err] ++ [inner] /\
  Forall exposesNothing [err] /\
  exposesForeign inner None /\
  length (default [] (None : StackTrace)) = 0%nat /\
  findStacktrace (lib := Bench.library) Bench.hook err = Returned None /\
  ~ exists st, findStacktrace (lib := Bench.library) Bench.hook err = Returned (Some st).
Proof.
  simpl. repeat split; try reflexivity.
  - repeat constructor.
  - intros [st Hst]. discriminate Hst.
Qed.

(** C2, as amended.  The innermost link that exposes a trace decides.  When
    the outermost error exposes a direct-format trace and the innermost
    trace-exposing link below it exposes a foreign-format trace (a non-nil
    slice), the resolver returns the conversion of that foreign-format trace
    and drops the outermost direct-format one; the outermost direct-format
    trace is returned unchanged when no link below it exposes a trace. *)
Theorem findStacktrace_innermost_capture_wins {lib : Library}
  (hook : Hook) (err : error) (direct : option Stacktrace) :
  asStacktracer err = Some direct ->
  (forall mid inner below raw,
      chain err = err :: mid ++ inner :: below ->
      exposesForeign inner (Some raw) ->
      Forall exposesNothing below ->
      findStacktrace hook err = st ← convertStackTrace hook (Some raw); mret (Some st)) /\
  (forall below,
      chain err = err :: below ->
      Forall exposesNothing below ->
      findStacktrace hook err = Returned direct).
Proof.
  intros Hdirect. split.
  - intros mid inner below raw Hchain Hinner Hbelow.
    apply (findStacktrace_innermost_foreign hook err (err :: mid) inner below raw);
      assumption.
  - intros below Hchain Hbelow. unfold findStacktrace.
    rewrite walkChain_foldl, Hchain. simpl.
    unfold capture at 2. rewrite Hdirect.
    rewrite foldl_capture_nothing by exact Hbelow. reflexivity.
Qed.

(** The amended C2 at work: the outermost error carries a direct-format
    trace (one frame, Serve), a wrapped error carries a pkg/errors trace
    (Load called from main); the result is main, Load. *)
Lemma findStacktrace_innermost_capture_wins_witness :
  let direct := Some {| Frames := [Bench.handlerFrame] |} in
  let inner := Bench.traced "disk" (Some [8192%N; 4096%N]) in
  let err := Bench.wrapDirect "serve" direct (Bench.wrap "load" inner) in
  asStacktracer err = Some direct /\
  exists st,
    findStacktrace (lib := Bench.library) Bench.hook err = Returned (Some st) /\
    Function <$> Frames st = ["main"; "Load"].
Proof.
  intros direct inner err. split; [reflexivity|].
  destruct (findStacktrace_innermost_capture_wins (lib := Bench.library) Bench.hook err direct
              eq_refl) as [Hforeign _].
  rewrite (Hforeign [Bench.wrap "load" inner] inner [] [8192%N; 4096%N]).
  - eexists. split; reflexivity.
  - reflexivity.
  - split; reflexivity.
  - constructor.
Defined.

(** C2 as stated fails: with a direct-format trace on the outermost error
    and a foreign-format one on a wrapped error, the resolver does not
    return the outermost trace; it returns the converted inner one. *)
Lemma findStacktrace_outermost_direct_counterexample :
  let direct := Some {| Frames := [Bench.handlerFrame] |} in
  let inner := Bench.traced "disk" (Some [8192%N; 4096%N]) in
  let err := Bench.wrapDirect "serve" direct (Bench.wrap "load" inner) in
  asStacktracer err = Some direct /\
  In inner (chain err) /\
  exposesForeign inner (Some [8192%N; 4096%N]) /\
  findStacktrace (lib := Bench.library) Bench.hook err <> Returned direct /\
  findStacktrace (lib := Bench.library) Bench.hook err
  = (st ← convertStackTrace (lib := Bench.library) Bench.hook (Some [8192%N; 4096%N]);
     mret (Some st)).
Proof.
  simpl. repeat split; try reflexivity.
  - right. right. left. reflexivity.
  - vm_compute. discriminate.
Qed.

(** C8 does not hold of the code: the conversion is not total.  For a raw
    frame whose program counter lies in no function known to the runtime,
    [runtime.FuncForPC] yields nil and [convertStackTrace] calls [FileLine]
    on that nil pointer before it ever tests [frame != nil]; with a runtime
    whose [FileLine] dereferences its receiver the frame is not dropped,
    the conversion panics, also when other frames resolve. *)
Theorem convertStackTrace_unknown_pc_panics :
  runtime_FuncForPC (Library := Bench.library) 0%N = None /\
  convertStackTrace (lib := Bench.library) Bench.hook (Some [0%N])
  = Panicked "invalid memory address or nil pointer dereference" /\
  convertStackTrace (lib := Bench.library) Bench.hook (Some [8192%N; 0%N; 4096%N])
  = Panicked "invalid memory address or nil pointer dereference" /\
  findStacktrace (lib := Bench.library) Bench.hook (Bench.traced "disk" (Some [0%N]))
  = Panicked "invalid memory address or nil pointer dereference".
Proof. repeat split; reflexivity. Qed.

(** ** Extra data *)

Section Building.
Context {lib : Library} {view : FieldView}.

(** The merge loop writes every key of [dataExtra]; other keys keep the
    value they had. *)
Lemma mergeExtra_lookup (extra dataExtra : gmap string iface) (k : string) :
  mergeExtra extra dataExtra !! k
  = match dataExtra !! k with
    | Some v => Some v
    | None => extra !! k
    end.
Proof.
  unfold mergeExtra.
  apply (map_fold_weak_ind
           (fun (acc : gmap string iface) (m : gmap string iface) =>
              acc !! k = match m !! k with Some v => Some v | None => extra !! k end)).
  - rewrite lookup_empty. reflexivity.
  - intros i x m acc Hfresh IH.
    destruct (decide (i = k)) as [->|Hne].
    + rewrite !lookup_insert_eq. reflexivity.
    + rewrite !lookup_insert_ne by exact Hne. exact IH.
Qed.

Lemma formatExtraData_lookup (hook : Hook) (df : dataField) (k : string) :
  formatExtraData hook df !! k
  = if isOmit df k || hasKey (ignoreFields hook) k then None
    else formatted hook k <$> data df !! k.
Proof.
  unfold formatExtraData.
  apply (map_fold_weak_ind
           (fun (acc : gmap string iface) (m : gmap string iface) =>
              acc !! k = if isOmit df k || hasKey (ignoreFields hook) k then None
                         else formatted hook k <$> m !! k)).
  - rewrite !lookup_empty. destruct (_ || _); reflexivity.
  - intros i x m acc Hfresh IH. unfold formatEntry.
    destruct (decide (i = k)) as [->|Hne].
    + rewrite lookup_insert_eq.
      destruct (isOmit df k); simpl in *.
      * exact IH.
      * destruct (hasKey (ignoreFields hook) k); simpl in *; [exact IH|].
        rewrite lookup_insert_eq. reflexivity.
    + rewrite (lookup_insert_ne m) by exact Hne.
      destruct (isOmit df i); [exact IH|].
      destruct (hasKey (ignoreFields hook) i); [exact IH|].
      rewrite lookup_insert_ne by exact Hne. exact IH.
Qed.

(** ** What each step of [Fire] leaves alone *)

Lemma applyField_Extra {A} (field : option A) (set : A -> Packet.t -> Packet.t) packet :
  (forall v p, Packet.Extra (set v p) = Packet.Extra p) ->
  Packet.Extra (applyField field set packet) = Packet.Extra packet.
Proof. intros H. destruct field; simpl; [apply H | reflexivity]. Qed.

Lemma applyField_Level {A} (field : option A) (set : A -> Packet.t -> Packet.t) packet :
  (forall v p, Packet.Level (set v p) = Packet.Level p) ->
  Packet.Level (applyField field set packet) = Packet.Level packet.
Proof. intros H. destruct field; simpl; [apply H | reflexivity]. Qed.

Lemma setSpecialFields_Extra hook df packet :
  Packet.Extra (setSpecialFields hook df packet) = Packet.Extra packet.
Proof.
  unfold setSpecialFields.
  rewrite !applyField_Extra by reflexivity.
  destruct (String.eqb _ _); reflexivity.
Qed.

Lemma setSpecialFields_Level hook df packet :
  Packet.Level (setSpecialFields hook df packet) = Packet.Level packet.
Proof.
  unfold setSpecialFields.
  rewrite !applyField_Level by reflexivity.
  destruct (String.eqb _ _); reflexivity.
Qed.

Lemma setException_frame hook err packet packet' :
  setException hook err packet = Returned packet' ->
  Packet.Extra packet' = Packet.Extra packet /\ Packet.Level packet' = Packet.Level packet.
Proof.
  unfold setException. intros H.
  apply bind_returned in H as (cur & _ & H).
  destruct (SwitchExceptionTypeAndMessage _).
  - apply bind_returned in H as (culprit & _ & H). injection H as <-. split; reflexivity.
  - injection H as <-. split; reflexivity.
Qed.

Lemma setStacktraceData_frame hook entry df packet packet' :
  setStacktraceData hook entry df packet = Returned packet' ->
  Packet.Extra packet' = Packet.Extra packet /\ Packet.Level packet' = Packet.Level packet.
Proof.
  unfold setStacktraceData. intros H.
  destruct (stacktraceWanted hook entry), (getError df) as [err|].
  - eapply setException_frame. exact H.
  - destruct (raven_NewStacktrace _ _ _); injection H as <-; split; reflexivity.
  - injection H as <-. split; reflexivity.
  - injection H as <-. split; reflexivity.
Qed.

Lemma seedPacket_Level entry :
  Packet.Level (seedPacket entry) = default EmptyString (severityMap !! Entry.Level entry).
Proof. reflexivity. Qed.

Lemma seedPacket_Extra entry :
  Packet.Extra (seedPacket entry) = Packet.Extra (raven_NewPacket (Entry.Message entry)).
Proof. reflexivity. Qed.

Lemma setOtherFields_Level hook df packet :
  Packet.Level (setOtherFields hook df packet) = Packet.Level packet.
Proof. unfold setOtherFields. destruct (Packet.Extra packet); reflexivity. Qed.

Lemma setOtherFields_Interfaces hook df packet :
  Packet.Interfaces (setOtherFields hook df packet) = Packet.Interfaces packet.
Proof. unfold setOtherFields. destruct (Packet.Extra packet); reflexivity. Qed.

Lemma setOtherFields_Culprit hook df packet :
  Packet.Culprit (setOtherFields hook df packet) = Packet.Culprit packet.
Proof. unfold setOtherFields. destruct (Packet.Extra packet); reflexivity. Qed.

(** [buildPacket] returns exactly when the stack-trace step does. *)
Lemma buildPacket_returned hook entry p :
  buildPacket hook entry = Returned p ->
  exists mid,
    setStacktraceData hook entry (newDataField (Entry.Data entry))
      (setSpecialFields hook (newDataField (Entry.Data entry)) (seedPacket entry))
    = Returned mid /\
    p = setOtherFields hook (newDataField (Entry.Data entry)) mid.
Proof.
  unfold buildPacket. intros H. apply bind_returned in H as (mid & Hmid & H).
  injection H as <-. eauto.
Qed.

Lemma severityMap_table (level : logrus.Level) :
  default EmptyString (severityMap !! level) = severityTable level.
Proof.
  unfold severityMap.
  destruct (decide (level = logrus.DebugLevel)) as [->|H5]; [reflexivity|].
  rewrite lookup_insert_ne by congruence.
  destruct (decide (level = logrus.InfoLevel)) as [->|H4]; [reflexivity|].
  rewrite lookup_insert_ne by congruence.
  destruct (decide (level = logrus.WarnLevel)) as [->|H3]; [reflexivity|].
  rewrite lookup_insert_ne by congruence.
  destruct (decide (level = logrus.ErrorLevel)) as [->|H2]; [reflexivity|].
  rewrite lookup_insert_ne by congruence.
  destruct (decide (level = logrus.FatalLevel)) as [->|H1]; [reflexivity|].
  rewrite lookup_insert_ne by congruence.
  destruct (decide (level = logrus.PanicLevel)) as [->|H0]; [reflexivity|].
  rewrite lookup_insert_ne by congruence.
  rewrite lookup_empty. simpl.
  unfold logrus.DebugLevel, logrus.InfoLevel, logrus.WarnLevel, logrus.ErrorLevel,
    logrus.FatalLevel, logrus.PanicLevel in *.
  unfold severityTable.
  destruct level as [|[[[]|[]|]|[[]|[]|]|]]; try reflexivity; congruence.
Qed.

End Building.

(** ** Claims about the packet *)

(** C1, as amended.  When the packet already has an extra-data mapping
    before the extra-data step (the one [raven.NewPacket] seeded; no step
    in between touches it), the packet built by [Fire] has a mapping in
    which every key of the formatted extra data carries the formatted value
    of the entry's field, also where the packet had a value of its own (on a
    key conflict the value derived from the entry's fields wins), and every
    other key keeps what the packet had. *)
Theorem buildPacket_extra_overwrites {lib : Library} {view : FieldView}
  (hook : Hook) (entry : Entry.t) (p : Packet.t) (extra : gmap string iface) :
  Packet.Extra (raven_NewPacket (Entry.Message entry)) = Some extra ->
  buildPacket hook entry = Returned p ->
  exists merged,
    Packet.Extra p = Some merged /\
    forall k,
      merged !! k
      = match formatExtraData hook (newDataField (Entry.Data entry)) !! k with
        | Some v => Some v
        | None => extra !! k
        end.
Proof.
  intros Hseed Hbuild.
  apply buildPacket_returned in Hbuild as (mid & Hmid & ->).
  apply setStacktraceData_frame in Hmid as [Hextra _].
  rewrite setSpecialFields_Extra, seedPacket_Extra, Hseed in Hextra.
  unfold setOtherFields. rewrite Hextra. simpl.
  eexists. split; [reflexivity|]. intros k. apply mergeExtra_lookup.
Qed.

(** The amended C1 at work: the entry's field "runtime.Version" replaces
    the value raven seeded under that key; "runtime.NumCPU" keeps it. *)
Lemma buildPacket_extra_overwrites_witness :
  let entry :=
    {| Entry.Message := "load failed"; Entry.Time := 1000;
       Entry.Level := logrus.ErrorLevel;
       Entry.Data := <["runtime.Version" := ofString "patched"]> ∅ |} in
  exists p merged,
    buildPacket (lib := Bench.library) (view := specView) Bench.hook entry = Returned p /\
    Packet.Extra p = Some merged /\
    merged !! "runtime.Version" = Some (ofString "patched") /\
    merged !! "runtime.NumCPU" = Some (ofString "8").
Proof.
  intros entry.
  destruct (buildPacket (lib := Bench.library) (view := specView) Bench.hook entry)
    as [p|r] eqn:Hbuild; [|vm_compute in Hbuild; discriminate Hbuild].
  destruct (buildPacket_extra_overwrites (lib := Bench.library) (view := specView)
              Bench.hook entry p _ eq_refl Hbuild) as (merged & Hextra & Hkeys).
  exists p, merged. split; [reflexivity|]. split; [exact Hextra|].
  rewrite !Hkeys. split; vm_compute; reflexivity.
Defined.

(** C1 as stated fails: a key of the packet's seeded extra data that is
    also a field of the entry does not keep the packet's value. *)
Lemma buildPacket_extra_counterexample :
  let entry :=
    {| Entry.Message := "load failed"; Entry.Time := 1000;
       Entry.Level := logrus.ErrorLevel;
       Entry.Data := <["runtime.Version" := ofString "patched"]> ∅ |} in
  exists p extra merged,
    Packet.Extra (raven_NewPacket (Library := Bench.library) (Entry.Message entry))
    = Some extra /\
    buildPacket (lib := Bench.library) (view := specView) Bench.hook entry = Returned p /\
    Packet.Extra p = Some merged /\
    extra !! "runtime.Version" = Some (ofString "go1.11") /\
    merged !! "runtime.Version" = Some (ofString "patched") /\
    merged !! "runtime.Version" <> extra !! "runtime.Version".
Proof.
  intros entry. eexists _, _, _.
  split; [reflexivity|]. split; [vm_compute; reflexivity|].
  split; [reflexivity|]. split; [vm_compute; reflexivity|].
  split; [vm_compute; reflexivity|]. vm_compute. discriminate.
Qed.

Section StacktraceBlock.
Context {lib : Library} {view : FieldView}.

Lemma stacktraceWanted_true hook entry :
  stacktraceWanted hook entry = true <->
  Enable (StacktraceConfiguration hook) = true /\
  (Entry.Level entry <= Level (StacktraceConfiguration hook))%N.
Proof.
  unfold stacktraceWanted. rewrite andb_true_iff, N.leb_le. reflexivity.
Qed.

Lemma setException_returned hook err packet packet' :
  setException hook err packet = Returned packet' ->
  exists cur,
    currentStacktraceOf hook err = Returned cur /\
    ((SwitchExceptionTypeAndMessage (StacktraceConfiguration hook) = true /\
      exists culprit,
        Stacktrace_Culprit cur = Returned culprit /\
        packet' = Packet.setCulprit (exType (exceptionOf hook err cur) +:+ ": " +:+ culprit)
                    (Packet.appendInterface (IStacktrace cur) packet)) \/
     (SwitchExceptionTypeAndMessage (StacktraceConfiguration hook) = false /\
      packet' = Packet.setCulprit (Error err)
                  (Packet.appendInterface (IException (exceptionOf hook err cur)) packet))).
Proof.
  unfold setException. intros H. apply bind_returned in H as (cur & Hcur & H).
  exists cur. split; [exact Hcur|].
  destruct (SwitchExceptionTypeAndMessage _).
  - left. split; [reflexivity|]. apply bind_returned in H as (culprit & Hc & H).
    injection H as <-. eauto.
  - right. split; [reflexivity|]. injection H as <-. reflexivity.
Qed.

(** The interfaces the stack-trace step appends. *)
Lemma setStacktraceData_interfaces hook entry df packet packet' :
  setStacktraceData hook entry df packet = Returned packet' ->
  exists block,
    Packet.Interfaces packet' = Packet.Interfaces packet ++ block /\
    (existsb isTraceOrException block = true <->
       stacktraceWanted hook entry = true /\
       (is_Some (getError df) \/
        is_Some (raven_NewStacktrace (Skip (StacktraceConfiguration hook))
                   (Context (StacktraceConfiguration hook))
                   (InAppPrefixes (StacktraceConfiguration hook))))).
Proof.
  unfold setStacktraceData. intros H.
  destruct (stacktraceWanted hook entry) eqn:Hwanted.
  - destruct (getError df) as [err|] eqn:Herr.
    + apply setException_returned in H as (cur & _ & [(_ & c & _ & ->)|(_ & ->)]).
      * exists [IStacktrace cur]. split; [reflexivity|]. simpl. intuition eauto.
      * exists [IException (exceptionOf hook err cur)]. split; [reflexivity|].
        simpl. intuition eauto.
    + destruct (raven_NewStacktrace _ _ _) as [st|] eqn:Hfresh; injection H as <-.
      * exists [IStacktrace (Some st)]. split; [reflexivity|]. simpl. intuition eauto.
      * exists []. split; [simpl; rewrite app_nil_r; reflexivity|]. simpl.
        split; [discriminate|]. intros [_ [[? ?]|[? ?]]]; discriminate.
  - exists []. split.
    + destruct (getError df); injection H as <-; simpl; rewrite app_nil_r; reflexivity.
    + simpl. split; [discriminate|]. intros [? _]. discriminate.
Qed.

End StacktraceBlock.

(** C9.  The severity of the packet is the entry's level looked up in the
    fixed table: debug to DEBUG, info to INFO, warn to WARNING, error to
    ERROR, fatal and panic to FATAL, and the empty severity for any other
    level.  It is set when the packet is seeded and is what every packet
    built by [Fire] carries. *)
Theorem packet_severity_table {lib : Library} {view : FieldView} (entry : Entry.t) :
  Packet.Level (seedPacket entry) = severityTable (Entry.Level entry) /\
  forall hook p,
    buildPacket hook entry = Returned p ->
    Packet.Level p = severityTable (Entry.Level entry).
Proof.
  split.
  - rewrite seedPacket_Level. apply severityMap_table.
  - intros hook p Hbuild.
    apply buildPacket_returned in Hbuild as (mid & Hmid & ->).
    apply setStacktraceData_frame in Hmid as [_ Hlevel].
    rewrite setOtherFields_Level, Hlevel, setSpecialFields_Level, seedPacket_Level.
    apply severityMap_table.
Qed.

(** C9 at work: a warning becomes WARNING; level 6 (trace, in later
    versions of logrus) is not in the table and gets the empty severity. *)
Lemma packet_severity_table_witness :
  let warn :=
    {| Entry.Message := "slow"; Entry.Time := 10; Entry.Level := logrus.WarnLevel;
       Entry.Data := ∅ |} in
  let trace :=
    {| Entry.Message := "step"; Entry.Time := 11; Entry.Level := 6%N;
       Entry.Data := ∅ |} in
  (exists p, buildPacket (lib := Bench.library) (view := specView) Bench.hook warn = Returned p /\
             Packet.Level p = raven.WARNING) /\
  (exists p, buildPacket (lib := Bench.library) (view := specView) Bench.hook trace = Returned p /\
             Packet.Level p = EmptyString).
Proof.
  intros warn trace. split.
  - destruct (buildPacket (lib := Bench.library) (view := specView) Bench.hook warn)
      as [p|r] eqn:Hbuild; [|vm_compute in Hbuild; discriminate Hbuild].
    exists p. split; [reflexivity|].
    exact (proj2 (packet_severity_table (lib := Bench.library) (view := specView) warn)
             Bench.hook p Hbuild).
  - destruct (buildPacket (lib := Bench.library) (view := specView) Bench.hook trace)
      as [p|r] eqn:Hbuild; [|vm_compute in Hbuild; discriminate Hbuild].
    exists p. split; [reflexivity|].
    exact (proj2 (packet_severity_table (lib := Bench.library) (view := specView) trace)
             Bench.hook p Hbuild).
Defined.

(** C5, as amended.  A stack-trace or exception interface is appended to the
    packet if and only if stack traces are enabled, the entry's level is at
    or above the configured level (numerically at most it), and there is
    something to append: the entry has an error value, or the freshly
    captured trace is not nil.  When the condition on the configuration is
    false, [Fire] builds a packet to which no such interface is appended,
    and whose culprit is the message of the entry's error value if it has
    one. *)
Theorem stacktrace_block_condition {lib : Library} {view : FieldView}
  (hook : Hook) (entry : Entry.t) :
  let df := newDataField (Entry.Data entry) in
  let before := setSpecialFields hook df (seedPacket entry) in
  let stConfig := StacktraceConfiguration hook in
  let fresh := raven_NewStacktrace (Skip stConfig) (Context stConfig) (InAppPrefixes stConfig) in
  let wanted := Enable stConfig = true /\ (Entry.Level entry <= Level stConfig)%N in
  (forall p,
      buildPacket hook entry = Returned p ->
      exists block,
        Packet.Interfaces p = Packet.Interfaces before ++ block /\
        (existsb isTraceOrException block = true <->
           wanted /\ (is_Some (getError df) \/ is_Some fresh))) /\
  (~ wanted ->
     exists p,
       buildPacket hook entry = Returned p /\
       Packet.Interfaces p = Packet.Interfaces before /\
       forall err, getError df = Some err -> Packet.Culprit p = Error err).
Proof.
  intros df before stConfig fresh wanted. split.
  - intros p Hbuild.
    apply buildPacket_returned in Hbuild as (mid & Hmid & ->).
    apply setStacktraceData_interfaces in Hmid as (block & Hblock & Hiff).
    exists block. rewrite setOtherFields_Interfaces. split; [exact Hblock|].
    rewrite Hiff, stacktraceWanted_true. reflexivity.
  - intros Hnot.
    assert (stacktraceWanted hook entry = false) as Hwanted.
    { destruct (stacktraceWanted hook entry) eqn:Hw; [|reflexivity].
      apply stacktraceWanted_true in Hw. contradiction. }
    unfold buildPacket, setStacktraceData. fold df. fold before. rewrite Hwanted.
    destruct (getError df) as [err|] eqn:Herr; simpl.
    + eexists. split; [reflexivity|].
      rewrite setOtherFields_Interfaces, setOtherFields_Culprit. simpl.
      split; [reflexivity|]. intros err' [= <-]. reflexivity.
    + eexists. split; [reflexivity|].
      rewrite setOtherFields_Interfaces. split; [reflexivity|]. discriminate.
Qed.

(** The amended C5 at work, on an entry that carries the error "boom": at
    level info, below the configured level error, the culprit is "boom" and
    nothing is appended; at level error the exception descriptor is. *)
Lemma stacktrace_block_condition_witness :
  let hook := Bench.hookWith true false 0 false (100 * Millisecond) in
  let entry level :=
    {| Entry.Message := "load failed"; Entry.Time := 1000; Entry.Level := level;
       Entry.Data := <["error" := ofError (Bench.plain "boom")]> ∅ |} in
  (exists p,
      buildPacket (lib := Bench.library) (view := specView) hook (entry logrus.InfoLevel)
      = Returned p /\
      Packet.Interfaces p = [] /\ Packet.Culprit p = "boom") /\
  (exists p exc,
      buildPacket (lib := Bench.library) (view := specView) hook (entry logrus.ErrorLevel)
      = Returned p /\
      Packet.Interfaces p = [IException exc]).
Proof.
  intros hook entry.
  pose proof (stacktrace_block_condition (lib := Bench.library) (view := specView)
                hook (entry logrus.InfoLevel)) as [_ Hunwanted].
  pose proof (stacktrace_block_condition (lib := Bench.library) (view := specView)
                hook (entry logrus.ErrorLevel)) as [Hwanted _].
  split.
  - destruct Hunwanted as (p & Hbuild & Hifaces & Hculprit).
    + intros [_ Hle]. vm_compute in Hle. apply Hle. reflexivity.
    + exists p. split; [exact Hbuild|]. split; [exact Hifaces|].
      apply (Hculprit (Bench.plain "boom")). reflexivity.
  - destruct (buildPacket (lib := Bench.library) (view := specView) hook
                (entry logrus.ErrorLevel)) as [p|r] eqn:Hbuild;
      [|vm_compute in Hbuild; discriminate Hbuild].
    destruct (Hwanted p eq_refl) as (block & Hifaces & _).
    vm_compute in Hbuild. injection Hbuild as <-.
    eexists _, _. split; reflexivity.
Defined.

(** C5 as stated fails: stack traces are enabled and the entry is at the
    configured level, yet no stack-trace or exception interface is added,
    because the entry has no error value and the fresh trace is nil (all
    callers are skipped). *)
Lemma stacktrace_block_counterexample :
  let hook := Bench.hookWith true false 5 false (100 * Millisecond) in
  let entry :=
    {| Entry.Message := "load failed"; Entry.Time := 1000;
       Entry.Level := logrus.ErrorLevel; Entry.Data := ∅ |} in
  Enable (StacktraceConfiguration hook) = true /\
  (Entry.Level entry <= Level (StacktraceConfiguration hook))%N /\
  exists p,
    buildPacket (lib := Bench.library) (view := specView) hook entry = Returned p /\
    Packet.Interfaces p = [] /\
    existsb isTraceOrException (Packet.Interfaces p) = false.
Proof.
  intros hook entry. split; [reflexivity|]. split; [vm_compute; discriminate|].
  eexists. split; [vm_compute; reflexivity|]. split; reflexivity.
Qed.

(** X21.  What the exception branch does when it gets through.
    For an entry with
    an error value, when the stack-trace block runs (stack traces enabled,
    level at or above the configured one), the trace of the error, found or
    freshly captured, is [cur], and, with the switch flag on, [Culprit] on
    that trace returns: with the flag on, the stack trace (not the exception
    descriptor) is appended and the culprit is the exception type, a colon
    and a space, and the culprit of the trace; with the flag off, the
    exception descriptor is appended and the culprit is the message of the
    error. *)
Theorem exception_block_culprit {lib : Library} {view : FieldView}
  (hook : Hook) (entry : Entry.t) (err : error) (cur : option Stacktrace) :
  let df := newDataField (Entry.Data entry) in
  let before := setSpecialFields hook df (seedPacket entry) in
  let stConfig := StacktraceConfiguration hook in
  let exc := exceptionOf hook err cur in
  Enable stConfig = true ->
  (Entry.Level entry <= Level stConfig)%N ->
  getError df = Some err ->
  currentStacktraceOf hook err = Returned cur ->
  (SwitchExceptionTypeAndMessage stConfig = true ->
   forall traceCulprit,
     Stacktrace_Culprit cur = Returned traceCulprit ->
     exists p,
       buildPacket hook entry = Returned p /\
       Packet.Interfaces p = Packet.Interfaces before ++ [IStacktrace cur] /\
       Packet.Culprit p = exType exc +:+ ": " +:+ traceCulprit) /\
  (SwitchExceptionTypeAndMessage stConfig = false ->
   exists p,
     buildPacket hook entry = Returned p /\
     Packet.Interfaces p = Packet.Interfaces before ++ [IException exc] /\
     Packet.Culprit p = Error err).
Proof.
  intros df before stConfig exc Henable Hlevel Herr Hcur.
  assert (stacktraceWanted hook entry = true) as Hwanted
    by (apply stacktraceWanted_true; split; assumption).
  split.
  - intros Hswitch traceCulprit Hculprit.
    unfold buildPacket, setStacktraceData. fold df. fold before.
    rewrite Hwanted, Herr. unfold setException. rewrite Hcur. simpl.
    fold stConfig. rewrite Hswitch, Hculprit. simpl.
    eexists. split; [reflexivity|].
    rewrite setOtherFields_Interfaces, setOtherFields_Culprit. split; reflexivity.
  - intros Hswitch.
    unfold buildPacket, setStacktraceData. fold df. fold before.
    rewrite Hwanted, Herr. unfold setException. rewrite Hcur. simpl.
    fold stConfig. rewrite Hswitch. simpl.
    eexists. split; [reflexivity|].
    rewrite setOtherFields_Interfaces, setOtherFields_Culprit. split; reflexivity.
Qed.

(** X21 at work: an error "boom" of type MyError, logged at
    level error.  With the switch flag on the culprit is
    "MyError: app/store.Load" and the fresh trace is appended; with the flag
    off the culprit is "boom" and an exception descriptor is appended. *)
Lemma exception_block_culprit_witness :
  let entry :=
    {| Entry.Message := "load failed"; Entry.Time := 1000;
       Entry.Level := logrus.ErrorLevel;
       Entry.Data := <["error" := ofError (Bench.plain "boom")]> ∅ |} in
  let fresh := Bench.NewStacktrace 0 0 ["app"] in
  (exists p,
      buildPacket (lib := Bench.library) (view := specView)
        (Bench.hookWith true true 0 false (100 * Millisecond)) entry = Returned p /\
      Packet.Interfaces p = [IStacktrace fresh] /\
      Packet.Culprit p = "MyError: app/store.Load") /\
  (exists p exc,
      buildPacket (lib := Bench.library) (view := specView)
        (Bench.hookWith true false 0 false (100 * Millisecond)) entry = Returned p /\
      Packet.Interfaces p = [IException exc] /\
      exType exc = "MyError" /\
      Packet.Culprit p = "boom").
Proof.
  intros entry fresh. split.
  - destruct (exception_block_culprit (lib := Bench.library) (view := specView)
                (Bench.hookWith true true 0 false (100 * Millisecond)) entry
                (Bench.plain "boom") fresh) as [Hon _].
    + reflexivity.
    + vm_compute. discriminate.
    + reflexivity.
    + reflexivity.
    + destruct (Hon eq_refl "app/store.Load" eq_refl) as (p & Hbuild & Hifaces & Hculprit).
      exists p. split; [exact Hbuild|]. split; [exact Hifaces | exact Hculprit].
  - destruct (exception_block_culprit (lib := Bench.library) (view := specView)
                (Bench.hookWith true false 0 false (100 * Millisecond)) entry
                (Bench.plain "boom") fresh) as [_ Hoff].
    + reflexivity.
    + vm_compute. discriminate.
    + reflexivity.
    + reflexivity.
    + destruct (Hoff eq_refl) as (p & Hbuild & Hifaces & Hculprit).
      exists p. eexists. split; [exact Hbuild|]. split; [exact Hifaces|].
      split; [reflexivity | exact Hculprit].
Defined.

(** The switch branch calls [Culprit] on the trace whatever it is: when the
    call panics, [Fire] builds no packet. *)
Lemma buildPacket_culprit_panics {lib : Library} {view : FieldView}
  (hook : Hook) (entry : Entry.t) (err : error) (cur : option Stacktrace) (reason : string) :
  stacktraceWanted hook entry = true ->
  getError (newDataField (Entry.Data entry)) = Some err ->
  currentStacktraceOf hook err = Returned cur ->
  SwitchExceptionTypeAndMessage (StacktraceConfiguration hook) = true ->
  Stacktrace_Culprit cur = Panicked reason ->
  buildPacket hook entry = Panicked reason.
Proof.
  intros Hwanted Herr Hcur Hswitch Hculprit.
  unfold buildPacket, setStacktraceData. rewrite Hwanted, Herr.
  unfold setException. rewrite Hcur. simpl. rewrite Hswitch, Hculprit. reflexivity.
Qed.

(** C6 does not hold of the code.  With stack traces enabled and the switch
    flag on, take an error-level entry whose error value carries no trace,
    and let every caller be skipped, so that [raven.NewStacktrace] is nil
    too.  Line 238 appends the nil trace and line 239 calls [Culprit] on the
    nil pointer, without the test for nil that the branch for entries
    without an error makes at line 246; with a raven whose [Culprit]
    dereferences its receiver, [Fire] panics: no stack trace is appended to
    any packet and no culprit is set.  With the flag off the same hook and
    entry give the exception descriptor and the culprit "boom". *)
Theorem exception_block_nil_trace_panics :
  let entry :=
    {| Entry.Message := "load failed"; Entry.Time := 1000;
       Entry.Level := logrus.ErrorLevel;
       Entry.Data := <["error" := ofError (Bench.plain "boom")]> ∅ |} in
  let switched := Bench.hookWith true true 5 false (100 * Millisecond) in
  let plain := Bench.hookWith true false 5 false (100 * Millisecond) in
  stacktraceWanted switched entry = true /\
  getError (FieldView := specView) (newDataField (Entry.Data entry))
  = Some (Bench.plain "boom") /\
  findStacktrace (lib := Bench.library) switched (Bench.plain "boom") = Returned None /\
  raven_NewStacktrace (Library := Bench.library) 5 0 ["app"] = None /\
  buildPacket (lib := Bench.library) (view := specView) switched entry
  = Panicked "invalid memory address or nil pointer dereference" /\
  Fire (lib := Bench.library) (view := specView) switched entry (FromErrCh None)
  = Panicked "invalid memory address or nil pointer dereference" /\
  exists p exc,
    buildPacket (lib := Bench.library) (view := specView) plain entry = Returned p /\
    Packet.Interfaces p = [IException exc] /\
    exStacktrace exc = None /\
    Packet.Culprit p = "boom".
Proof.
  intros entry switched plain.
  split; [reflexivity|]. split; [reflexivity|]. split; [reflexivity|].
  split; [reflexivity|]. split; [vm_compute; reflexivity|].
  split; [vm_compute; reflexivity|].
  eexists _, _. split; [vm_compute; reflexivity|]. repeat split; reflexivity.
Qed.

(** ** Claims about delivery and construction *)



Lemma setAsync_variant (sync : option Hook * option error) :
  (forall hook, fst sync = Some hook -> asynchronous hook = false) ->
  asyncVariantOf (setAsync (fst sync), snd sync) sync.
Proof.
  intros Hsync. split; [reflexivity|]. split.
  - intros hook Hhook. exists (setAsynchronous true hook). simpl. rewrite Hhook.
    split; [reflexivity|]. unfold differOnlyInMode. simpl.
    rewrite (Hsync hook Hhook). repeat split; reflexivity.
  - intros hook' Hhook'. simpl in Hhook'.
    destruct (fst sync) as [hook|] eqn:Hhook; [|discriminate].
    injection Hhook' as <-. exists hook. split; [reflexivity|].
    unfold differOnlyInMode. simpl. rewrite (Hsync hook eq_refl). repeat split; reflexivity.
Qed.

Lemma constructs_setAsync (sync : option Hook * option error) :
  constructs sync false -> constructs (setAsync (fst sync), snd sync) true.
Proof.
  intros Hsync hook' Hhook'. simpl in *.
  destruct (fst sync) as [hook|] eqn:Hhook; [|discriminate].
  injection Hhook' as <-. destruct (Hsync hook Hhook) as (Herr & Hconf & _).
  split; [exact Herr|]. split; [exact Hconf | reflexivity].
Qed.

Lemma NewWithClientHook_constructs client levels :
  constructs (NewWithClientHook client levels) false.
Proof.
  intros hook Hhook. injection Hhook as <-.
  split; [reflexivity|]. split; [|reflexivity]. repeat split; reflexivity.
Qed.

Lemma hookOrError_setAsync (sync : option Hook * option error) :
  hookOrError sync -> hookOrError (setAsync (fst sync), snd sync).
Proof.
  intros [[hook ->]|[e ->]]; simpl.
  - left. eexists. reflexivity.
  - right. eexists. reflexivity.
Qed.

(** C10.  Each of the six constructors returns either a hook and no error or
    an error and no hook; the constructor on a ready client always returns
    a hook, and the ones from a connection string return the error of
    [raven.New] (of [raven.NewWithTags]), so a hook exactly when raven
    reports none.  The hook returned has: a timeout of 100 milliseconds;
    stack traces disabled, capture level error, 5 frames skipped, 0 context
    lines, no in-app prefixes, exception types sent; an ignore set and a
    filter map that are empty and not nil; the client and the levels given;
    no server name.  The three synchronous constructors leave the mode flag
    unset, the asynchronous ones set it, and an asynchronous constructor
    returns a hook exactly when its synchronous sibling does, the two hooks
    being equal in every other field.  The factory [New] returns such a
    synchronous hook or nil. *)
Theorem constructors_default_configuration {lib : Library}
  (DSN : string) (tags : list (string * string)) (ravenClient : option Client)
  (levels : list logrus.Level) :
  (exists hook, NewWithClientHook ravenClient levels = (Some hook, None)) /\
  constructs (NewWithClientHook ravenClient levels) false /\
  constructs (NewHook DSN levels) false /\
  constructs (NewWithTagsHook DSN tags levels) false /\
  constructs (NewAsyncWithClientHook ravenClient levels) true /\
  constructs (NewAsyncHook DSN levels) true /\
  constructs (NewAsyncWithTagsHook DSN tags levels) true /\
  asyncVariantOf (NewAsyncWithClientHook ravenClient levels) (NewWithClientHook ravenClient levels) /\
  asyncVariantOf (NewAsyncHook DSN levels) (NewHook DSN levels) /\
  asyncVariantOf (NewAsyncWithTagsHook DSN tags levels) (NewWithTagsHook DSN tags levels) /\
  (forall hook, New DSN = Some hook -> defaultConfiguration hook /\ asynchronous hook = false) /\
  hookOrError (NewWithClientHook ravenClient levels) /\
  hookOrError (NewHook DSN levels) /\
  hookOrError (NewWithTagsHook DSN tags levels) /\
  hookOrError (NewAsyncWithClientHook ravenClient levels) /\
  hookOrError (NewAsyncHook DSN levels) /\
  hookOrError (NewAsyncWithTagsHook DSN tags levels) /\
  snd (NewHook DSN levels) = snd (raven_New DSN) /\
  snd (NewWithTagsHook DSN tags levels) = snd (raven_NewWithTags DSN tags) /\
  (forall hook,
      fst (NewWithClientHook ravenClient levels) = Some hook ->
      client hook = ravenClient /\ Levels hook = levels /\ serverName hook = EmptyString) /\
  (forall hook,
      fst (NewHook DSN levels) = Some hook ->
      client hook = fst (raven_New DSN) /\ Levels hook = levels /\
      serverName hook = EmptyString) /\
  (forall hook,
      fst (NewWithTagsHook DSN tags levels) = Some hook ->
      client hook = fst (raven_NewWithTags DSN tags) /\ Levels hook = levels /\
      serverName hook = EmptyString).
Proof.
  assert (forall levels, constructs (NewHook DSN levels) false) as Hany.
  { intros levels'. unfold NewHook. destruct (raven_New DSN) as [c [e|]].
    - intros hook Hhook. discriminate Hhook.
    - apply NewWithClientHook_constructs. }
  pose proof (Hany levels) as Hdsn.
  assert (constructs (NewWithTagsHook DSN tags levels) false) as Htags.
  { unfold NewWithTagsHook. destruct (raven_NewWithTags DSN tags) as [c [e|]].
    - intros hook Hhook. discriminate Hhook.
    - apply NewWithClientHook_constructs. }
  pose proof (NewWithClientHook_constructs ravenClient levels) as Hclient.
  assert (hookOrError (NewWithClientHook ravenClient levels)) as Hoclient
    by (left; eexists; reflexivity).
  assert (hookOrError (NewHook DSN levels)) as Hodsn.
  { unfold NewHook. destruct (raven_New DSN) as [c [e|]].
    - right. eexists. reflexivity.
    - left. eexists. reflexivity. }
  assert (hookOrError (NewWithTagsHook DSN tags levels)) as Hotags.
  { unfold NewWithTagsHook. destruct (raven_NewWithTags DSN tags) as [c [e|]].
    - right. eexists. reflexivity.
    - left. eexists. reflexivity. }
  assert (forall r : option Hook * option error,
             (let '(hook, err) := r in (setAsync hook, err)) = (setAsync (fst r), snd r))
    as Hpair by (intros [? ?]; reflexivity).
  unfold NewAsyncWithClientHook, NewAsyncHook, NewAsyncWithTagsHook. rewrite !Hpair.
  split; [eexists; reflexivity|].
  split; [exact Hclient|]. split; [exact Hdsn|]. split; [exact Htags|].
  split; [apply constructs_setAsync; exact Hclient|].
  split; [apply constructs_setAsync; exact Hdsn|].
  split; [apply constructs_setAsync; exact Htags|].
  split; [apply setAsync_variant; intros hook Hhook; apply (Hclient hook Hhook)|].
  split; [apply setAsync_variant; intros hook Hhook; apply (Hdsn hook Hhook)|].
  split; [apply setAsync_variant; intros hook Hhook; apply (Htags hook Hhook)|].
  split.
  { intros hook Hnew. unfold New in Hnew.
    pose proof (Hany [logrus.PanicLevel; logrus.FatalLevel; logrus.ErrorLevel]) as Hfactory.
    destruct (NewHook DSN [logrus.PanicLevel; logrus.FatalLevel; logrus.ErrorLevel])
      as [h [e|]]; simpl in Hnew; [discriminate Hnew|].
    destruct (Hfactory hook Hnew) as (_ & Hconf & Hmode). split; assumption. }
  split; [exact Hoclient|]. split; [exact Hodsn|]. split; [exact Hotags|].
  split; [apply hookOrError_setAsync; exact Hoclient|].
  split; [apply hookOrError_setAsync; exact Hodsn|].
  split; [apply hookOrError_setAsync; exact Hotags|].
  split; [unfold NewHook; destruct (raven_New DSN) as [c [e|]]; reflexivity|].
  split; [unfold NewWithTagsHook; destruct (raven_NewWithTags DSN tags) as [c [e|]];
          reflexivity|].
  split; [intros hook [= <-]; repeat split; reflexivity|].
  split.
  - unfold NewHook. destruct (raven_New DSN) as [c [e|]]; intros hook Hhook;
      [discriminate Hhook|]. injection Hhook as <-. repeat split; reflexivity.
  - unfold NewWithTagsHook. destruct (raven_NewWithTags DSN tags) as [c [e|]];
      intros hook Hhook; [discriminate Hhook|]. injection Hhook as <-.
      repeat split; reflexivity.
Qed.

(** C10 at work: from a well-formed connection string both variants return
    a hook, 100ms of timeout and stack traces off, the asynchronous one with
    its flag set; from a malformed one neither returns a hook. *)
Lemma constructors_default_configuration_witness :
  let dsn := "https://key@sentry.example/1" in
  let levels := [logrus.ErrorLevel] in
  (exists sync async,
      NewHook (lib := Bench.library) dsn levels = (Some sync, None) /\
      NewAsyncHook (lib := Bench.library) dsn levels = (Some async, None) /\
      Timeout sync = 100000000 /\
      Enable (StacktraceConfiguration sync) = false /\
      differOnlyInMode sync async) /\
  fst (NewAsyncHook (lib := Bench.library) "sentry" levels) = None.
Proof.
  intros dsn levels.
  destruct (constructors_default_configuration (lib := Bench.library) dsn [] None levels)
    as (_ & _ & Hsync & _ & _ & _ & _ & _ & (_ & Hvariant & _) & _).
  split; [|reflexivity].
  destruct (NewHook (lib := Bench.library) dsn levels) as [[sync|] err] eqn:Hnew;
    [|vm_compute in Hnew; discriminate Hnew].
  destruct (Hsync sync eq_refl) as (Herr & (Htimeout & Hconf & _) & _).
  destruct (Hvariant sync eq_refl) as (async & Hasync & Hdiffer).
  simpl in Herr. subst err.
  exists sync, async. split; [reflexivity|]. split.
  - vm_compute in Hnew. injection Hnew as <-. vm_compute in Hasync.
    injection Hasync as <-. reflexivity.
  - split; [exact Htimeout|]. split; [rewrite Hconf; reflexivity | exact Hdiffer].
Defined.

(** * Further properties of the hook *)

(** ** The resolver *)

(** X1.  The reversal loop of [convertStackTrace], started as the code
    starts it, never indexes out of range and returns the reversed slice,
    whatever the slice (empty, one frame, odd or even length); run twice it
    gives the slice back. *)
Theorem reverseLoop_reverses (frames : list StacktraceFrame) :
  reverseLoop frames 0 (Z.of_nat (length frames) - 1) = Returned (rev frames) /\
  (once ← reverseLoop frames 0 (Z.of_nat (length frames) - 1);
   reverseLoop once 0 (Z.of_nat (length once) - 1)) = Returned frames.
Proof.
  split; [apply reverseLoop_rev|].
  rewrite reverseLoop_rev. simpl. rewrite reverseLoop_rev, rev_involutive. reflexivity.
Qed.

Section Resolver.
Context {lib : Library}.

(** X2.  [convertStackTrace] returns exactly when the location lookup
    returns on every raw frame; the trace it returns then has at most as
    many frames as the input, each of them the record the library built for
    one of the raw frames. *)
Theorem convertStackTrace_returns_iff (hook : Hook) (raw : list Frame) :
  ((exists st, convertStackTrace hook (Some raw) = Returned st) <->
   (forall pc, In pc raw ->
      exists loc, Func_FileLine (runtime_FuncForPC pc) pc = Returned loc)) /\
  (forall st,
      convertStackTrace hook (Some raw) = Returned st ->
      (length (Frames st) <= length raw)%nat /\
      forall frame, In frame (Frames st) ->
        exists pc file line,
          In pc raw /\
          Func_FileLine (runtime_FuncForPC pc) pc = Returned (file, line) /\
          raven_NewStacktraceFrame pc file line
            (Context (StacktraceConfiguration hook))
            (InAppPrefixes (StacktraceConfiguration hook)) = Some frame).
Proof.
  set (loc := fun pc => match Func_FileLine (runtime_FuncForPC pc) pc with
                        | Returned l => l
                        | Panicked _ => (EmptyString, 0)
                        end).
  assert ((forall pc, In pc raw ->
             exists l, Func_FileLine (runtime_FuncForPC pc) pc = Returned l) ->
          forall pc, In pc raw ->
            Func_FileLine (runtime_FuncForPC pc) pc = Returned (loc pc)) as Hloc.
  { intros Hall pc Hin. destruct (Hall pc Hin) as [l Hl]. unfold loc. rewrite Hl. reflexivity. }
  assert ((exists st, convertStackTrace hook (Some raw) = Returned st) ->
          forall pc, In pc raw ->
            exists l, Func_FileLine (runtime_FuncForPC pc) pc = Returned l) as Hall.
  { intros [st Hst] pc Hin.
    destruct (Func_FileLine (runtime_FuncForPC pc) pc) as [l|reason] eqn:Hpc; [eauto|].
    destruct (convertStackTrace_panics hook raw pc reason Hin Hpc) as [r Hr].
    rewrite Hr in Hst. discriminate Hst. }
  split; [split|].
  - exact Hall.
  - intros H. eexists. apply (convertStackTrace_returns hook loc raw (Hloc H)).
  - intros st Hst. specialize (Hloc (Hall (ex_intro _ st Hst))).
    rewrite (convertStackTrace_returns hook loc raw Hloc) in Hst. injection Hst as <-.
    simpl. split.
    + rewrite length_rev. pose proof (kept_dropped_length hook loc raw). lia.
    + intros frame Hin. apply in_rev in Hin. unfold keptFrames in Hin.
      apply list_elem_of_In, list_elem_of_omap in Hin as (pc & Hpc & Hframe).
      apply list_elem_of_In in Hpc.
      exists pc, (fst (loc pc)), (snd (loc pc)). split; [exact Hpc|].
      rewrite <- surjective_pairing. split; [apply Hloc; exact Hpc | exact Hframe].
Qed.

(** X3.  When no link of the chain exposes a trace, the resolver returns
    nil without calling into the runtime, and the trace [Fire] goes on with
    is the one freshly captured by [raven.NewStacktrace]. *)
Theorem findStacktrace_no_trace (hook : Hook) (err : error) :
  Forall exposesNothing (chain err) ->
  findStacktrace hook err = Returned None /\
  currentStacktraceOf hook err
  = Returned (raven_NewStacktrace (Skip (StacktraceConfiguration hook))
                (Context (StacktraceConfiguration hook))
                (InAppPrefixes (StacktraceConfiguration hook))).
Proof.
  intros Hnone.
  assert (findStacktrace hook err = Returned None) as Hfind.
  { unfold findStacktrace. rewrite walkChain_foldl, foldl_capture_nothing by exact Hnone.
    reflexivity. }
  split; [exact Hfind|]. unfold currentStacktraceOf. rewrite Hfind. reflexivity.
Qed.

(** X4.  A link that has [GetStacktrace] is asked for it even if it has
    [StackTrace] too; when it is the innermost link exposing a trace, its
    result is returned as it is (nil included), nothing is converted, and
    whatever the links further out exposed is dropped. *)
Theorem findStacktrace_innermost_direct (hook : Hook) (err inner : error)
  (outer below : list error) (st : option Stacktrace) :
  chain err = outer ++ inner :: below ->
  asStacktracer inner = Some st ->
  Forall exposesNothing below ->
  findStacktrace hook err = Returned st.
Proof.
  intros Hchain Hinner Hbelow. unfold findStacktrace.
  rewrite walkChain_foldl, Hchain, foldl_app. simpl.
  unfold capture at 2. rewrite Hinner.
  rewrite foldl_capture_nothing by exact Hbelow. reflexivity.
Qed.

End Resolver.

(** X3 at work: a plain error wrapped twice. *)
Lemma findStacktrace_no_trace_witness :
  findStacktrace (lib := Bench.library) Bench.hook
    (Bench.wrap "request" (Bench.wrap "load" (Bench.plain "boom")))
  = Returned None.
Proof.
  apply (findStacktrace_no_trace (lib := Bench.library) Bench.hook
           (Bench.wrap "request" (Bench.wrap "load" (Bench.plain "boom")))).
  repeat constructor.
Defined.

(** X4 at work: the wrapped error has both methods and its [GetStacktrace]
    is nil; the pkg/errors trace of the outermost error and the one of the
    wrapped error itself are both dropped. *)
Lemma findStacktrace_innermost_direct_witness :
  let both :=
    {| Error := "disk"; dynType := "*app.tracedError"; asStacktracer := Some None;
       asPkgErrorStackTracer := Some (Some [8192%N]); asCauser := None |} in
  let err :=
    {| Error := "load: disk"; dynType := "*errors.withStack"; asStacktracer := None;
       asPkgErrorStackTracer := Some (Some [4096%N]); asCauser := Some (Some both) |} in
  findStacktrace (lib := Bench.library) Bench.hook err = Returned None.
Proof.
  intros both err.
  apply (findStacktrace_innermost_direct (lib := Bench.library) Bench.hook err both
           [err] [] None).
  - reflexivity.
  - reflexivity.
  - constructor.
Defined.

(** X2 at work: Load, main and goexit resolve, goexit gets no record. *)
Lemma convertStackTrace_returns_iff_witness :
  exists st,
    convertStackTrace (lib := Bench.library) Bench.hook (Some [8192%N; 4096%N; 12288%N])
    = Returned st /\
    (length (Frames st) <= 3)%nat.
Proof.
  destruct (convertStackTrace_returns_iff (lib := Bench.library) Bench.hook
              [8192%N; 4096%N; 12288%N]) as [[_ Hreturns] Hbound].
  destruct Hreturns as [st Hst].
  - intros pc [<-|[<-|[<-|[]]]]; eexists; reflexivity.
  - exists st. split; [exact Hst|]. apply (Hbound st Hst).
Defined.

(** ** The packet *)

Section PacketFields.
Context {lib : Library} {view : FieldView}.

Lemma applyField_frame {A B} (proj : Packet.t -> B) (field : option A)
  (set : A -> Packet.t -> Packet.t) (packet : Packet.t) :
  (forall v p, proj (set v p) = proj p) ->
  proj (applyField field set packet) = proj packet.
Proof. intros H. destruct field; simpl; [apply H | reflexivity]. Qed.

Lemma setStacktraceData_preserves {B} (proj : Packet.t -> B) hook entry df packet packet' :
  (forall v p, proj (Packet.setCulprit v p) = proj p) ->
  (forall x p, proj (Packet.appendInterface x p) = proj p) ->
  setStacktraceData hook entry df packet = Returned packet' ->
  proj packet' = proj packet.
Proof.
  intros Hculprit Happend. unfold setStacktraceData. intros H.
  destruct (stacktraceWanted hook entry), (getError df) as [err|].
  - apply setException_returned in H as (cur & _ & [(_ & c & _ & ->)|(_ & ->)]);
      rewrite Hculprit, Happend; reflexivity.
  - destruct (raven_NewStacktrace _ _ _); injection H as <-;
      [apply Happend | reflexivity].
  - injection H as <-. apply Hculprit.
  - injection H as <-. reflexivity.
Qed.

Lemma setOtherFields_preserves {B} (proj : Packet.t -> B) hook df packet :
  (forall v p, proj (Packet.setExtra v p) = proj p) ->
  proj (setOtherFields hook df packet) = proj packet.
Proof. intros H. unfold setOtherFields. destruct (Packet.Extra packet); apply H. Qed.

Lemma setSpecialFields_ServerName hook df packet :
  Packet.ServerName (setSpecialFields hook df packet)
  = match getServerName df with
    | Some name => name
    | None =>
        if String.eqb (serverName hook) EmptyString then Packet.ServerName packet
        else serverName hook
    end.
Proof.
  unfold setSpecialFields.
  rewrite !(applyField_frame Packet.ServerName (getUser df)) by reflexivity.
  rewrite !(applyField_frame Packet.ServerName (getHTTPRequest df)) by reflexivity.
  rewrite !(applyField_frame Packet.ServerName (getFingerprint df)) by reflexivity.
  rewrite !(applyField_frame Packet.ServerName (getTags df)) by reflexivity.
  rewrite !(applyField_frame Packet.ServerName (getEventID df)) by reflexivity.
  destruct (getServerName df) as [name|]; simpl; [reflexivity|].
  rewrite (applyField_frame Packet.ServerName (getLogger df)) by reflexivity.
  destruct (String.eqb _ _); reflexivity.
Qed.

Lemma setSpecialFields_Interfaces hook df packet :
  Packet.Interfaces (setSpecialFields hook df packet)
  = Packet.Interfaces packet ++ appended (getHTTPRequest df) IHttp
      ++ appended (getUser df) IUser.
Proof.
  unfold setSpecialFields.
  destruct (getUser df) as [user|], (getHTTPRequest df) as [req|]; simpl;
    rewrite ?app_nil_r, <- ?app_assoc;
    rewrite !(applyField_frame Packet.Interfaces (getFingerprint df)) by reflexivity;
    rewrite !(applyField_frame Packet.Interfaces (getTags df)) by reflexivity;
    rewrite !(applyField_frame Packet.Interfaces (getEventID df)) by reflexivity;
    rewrite !(applyField_frame Packet.Interfaces (getServerName df)) by reflexivity;
    rewrite !(applyField_frame Packet.Interfaces (getLogger df)) by reflexivity;
    destruct (String.eqb _ _); reflexivity.
Qed.

(** The stack-trace step appends at most one interface, a stack trace or an
    exception descriptor. *)
Lemma setStacktraceData_block hook entry df packet packet' :
  setStacktraceData hook entry df packet = Returned packet' ->
  exists block,
    Packet.Interfaces packet' = Packet.Interfaces packet ++ block /\
    (length block <= 1)%nat /\
    forallb isTraceOrException block = true /\
    (getError df = None -> forall exc, ~ In (IException exc) block).
Proof.
  unfold setStacktraceData. intros H.
  destruct (stacktraceWanted hook entry), (getError df) as [err|].
  - apply setException_returned in H as (cur & _ & [(_ & c & _ & ->)|(_ & ->)]);
      eexists [_]; (split; [reflexivity|]); (split; [simpl; lia|]);
      (split; [reflexivity|]); discriminate.
  - destruct (raven_NewStacktrace _ _ _) as [st|]; injection H as <-.
    + exists [IStacktrace (Some st)]. split; [reflexivity|]. split; [simpl; lia|].
      split; [reflexivity|]. intros _ exc [Hin|[]]. discriminate Hin.
    + exists []. rewrite app_nil_r. split; [reflexivity|]. split; [simpl; lia|].
      split; [reflexivity|]. intros _ exc [].
  - injection H as <-. exists []. simpl. rewrite app_nil_r.
    split; [reflexivity|]. split; [lia|]. split; [reflexivity|]. discriminate.
  - injection H as <-. exists []. simpl. rewrite app_nil_r.
    split; [reflexivity|]. split; [lia|]. split; [reflexivity|]. intros _ exc [].
Qed.

(** X5.  What the packet [Fire] builds carries besides interfaces and extra
    data: the message as [raven.NewPacket] set it, the entry's time, the
    platform "go"; as server name the entry's server_name field if the view
    yields one, else the hook's server name if it is not empty, else what
    [raven.NewPacket] set; logger, event id, tags and fingerprint from the
    entry's fields where the view yields them, else as [raven.NewPacket]
    set them.  No later step overwrites any of these. *)
Theorem buildPacket_special_fields (hook : Hook) (entry : Entry.t) (p : Packet.t) :
  let df := newDataField (Entry.Data entry) in
  let fresh := raven_NewPacket (Entry.Message entry) in
  buildPacket hook entry = Returned p ->
  Packet.Message p = Packet.Message fresh /\
  Packet.Timestamp p = Entry.Time entry /\
  Packet.Platform p = "go" /\
  Packet.ServerName p
  = match getServerName df with
    | Some name => name
    | None =>
        if String.eqb (serverName hook) EmptyString then Packet.ServerName fresh
        else serverName hook
    end /\
  Packet.Logger p = default (Packet.Logger fresh) (getLogger df) /\
  Packet.EventID p = default (Packet.EventID fresh) (getEventID df) /\
  Packet.Tags p = default (Packet.Tags fresh) (getTags df) /\
  Packet.Fingerprint p = default (Packet.Fingerprint fresh) (getFingerprint df).
Proof.
  intros df fresh Hbuild.
  apply buildPacket_returned in Hbuild as (mid & Hmid & ->). fold df in Hmid |- *.
  pose proof (fun B (proj : Packet.t -> B) H1 H2 =>
                setStacktraceData_preserves proj hook entry df _ mid H1 H2 Hmid) as Hkeep.
  repeat split.
  - rewrite setOtherFields_preserves, Hkeep by reflexivity.
    unfold setSpecialFields. rewrite !applyField_frame by reflexivity.
    destruct (String.eqb _ _); reflexivity.
  - rewrite setOtherFields_preserves, Hkeep by reflexivity.
    unfold setSpecialFields. rewrite !applyField_frame by reflexivity.
    destruct (String.eqb _ _); reflexivity.
  - rewrite setOtherFields_preserves, Hkeep by reflexivity.
    unfold setSpecialFields. rewrite !applyField_frame by reflexivity.
    destruct (String.eqb _ _); reflexivity.
  - rewrite setOtherFields_preserves, Hkeep by reflexivity.
    rewrite setSpecialFields_ServerName. reflexivity.
  - rewrite setOtherFields_preserves, Hkeep by reflexivity.
    unfold setSpecialFields.
    rewrite !(applyField_frame Packet.Logger (getUser df)) by reflexivity.
    rewrite !(applyField_frame Packet.Logger (getHTTPRequest df)) by reflexivity.
    rewrite !(applyField_frame Packet.Logger (getFingerprint df)) by reflexivity.
    rewrite !(applyField_frame Packet.Logger (getTags df)) by reflexivity.
    rewrite !(applyField_frame Packet.Logger (getEventID df)) by reflexivity.
    rewrite !(applyField_frame Packet.Logger (getServerName df)) by reflexivity.
    destruct (getLogger df), (String.eqb _ _); reflexivity.
  - rewrite setOtherFields_preserves, Hkeep by reflexivity.
    unfold setSpecialFields.
    rewrite !(applyField_frame Packet.EventID (getUser df)) by reflexivity.
    rewrite !(applyField_frame Packet.EventID (getHTTPRequest df)) by reflexivity.
    rewrite !(applyField_frame Packet.EventID (getFingerprint df)) by reflexivity.
    rewrite !(applyField_frame Packet.EventID (getTags df)) by reflexivity.
    destruct (getEventID df); simpl; [reflexivity|].
    rewrite !applyField_frame by reflexivity.
    destruct (String.eqb _ _); reflexivity.
  - rewrite setOtherFields_preserves, Hkeep by reflexivity.
    unfold setSpecialFields.
    rewrite !(applyField_frame Packet.Tags (getUser df)) by reflexivity.
    rewrite !(applyField_frame Packet.Tags (getHTTPRequest df)) by reflexivity.
    rewrite !(applyField_frame Packet.Tags (getFingerprint df)) by reflexivity.
    destruct (getTags df); simpl; [reflexivity|].
    rewrite !applyField_frame by reflexivity.
    destruct (String.eqb _ _); reflexivity.
  - rewrite setOtherFields_preserves, Hkeep by reflexivity.
    unfold setSpecialFields.
    rewrite !(applyField_frame Packet.Fingerprint (getUser df)) by reflexivity.
    rewrite !(applyField_frame Packet.Fingerprint (getHTTPRequest df)) by reflexivity.
    destruct (getFingerprint df); simpl; [reflexivity|].
    rewrite !applyField_frame by reflexivity.
    destruct (String.eqb _ _); reflexivity.
Qed.

(** X6.  The interfaces of the packet [Fire] builds are, in this order: what
    [raven.NewPacket] put there, the HTTP request if the view yields one,
    the user if the view yields one, and at most one stack trace or
    exception descriptor; an entry without an error value never gets an
    exception descriptor. *)
Theorem buildPacket_interface_order (hook : Hook) (entry : Entry.t) (p : Packet.t) :
  let df := newDataField (Entry.Data entry) in
  buildPacket hook entry = Returned p ->
  exists block,
    Packet.Interfaces p
    = Packet.Interfaces (raven_NewPacket (Entry.Message entry))
        ++ appended (getHTTPRequest df) IHttp
        ++ appended (getUser df) IUser
        ++ block /\
    (length block <= 1)%nat /\
    forallb isTraceOrException block = true /\
    (getError df = None -> forall exc, ~ In (IException exc) block).
Proof.
  intros df Hbuild.
  apply buildPacket_returned in Hbuild as (mid & Hmid & ->). fold df in Hmid |- *.
  apply setStacktraceData_block in Hmid as (block & Hifaces & Hlen & Hkind & Hexc).
  exists block. rewrite setOtherFields_Interfaces, Hifaces, setSpecialFields_Interfaces.
  rewrite <- !app_assoc. repeat split; assumption.
Qed.

End PacketFields.

(** X5 at work: the hook's server name is "web-1"; an entry with a
    server_name field keeps its own, an entry without gets the hook's. *)
Lemma buildPacket_special_fields_witness :
  let hook := SetServerName Bench.hook "web-1" in
  let entry fields :=
    {| Entry.Message := "load failed"; Entry.Time := 1000;
       Entry.Level := logrus.ErrorLevel; Entry.Data := fields |} in
  (exists p,
      buildPacket (lib := Bench.library) (view := specView) hook
        (entry (<["server_name" := ofString "db-7"]> (<["logger" := ofString "store"]> ∅)))
      = Returned p /\
      Packet.ServerName p = "db-7" /\ Packet.Logger p = "store" /\
      Packet.Timestamp p = 1000) /\
  (exists p,
      buildPacket (lib := Bench.library) (view := specView) hook (entry ∅) = Returned p /\
      Packet.ServerName p = "web-1" /\ Packet.Message p = "load failed").
Proof.
  intros hook entry. split.
  - destruct (buildPacket (lib := Bench.library) (view := specView) hook
                (entry (<["server_name" := ofString "db-7"]>
                          (<["logger" := ofString "store"]> ∅))))
      as [p|r] eqn:Hbuild; [|vm_compute in Hbuild; discriminate Hbuild].
    destruct (buildPacket_special_fields (lib := Bench.library) (view := specView)
                hook _ p Hbuild) as (_ & Htime & _ & Hserver & Hlogger & _).
    exists p. split; [reflexivity|]. rewrite Hserver, Hlogger, Htime.
    repeat split; vm_compute; reflexivity.
  - destruct (buildPacket (lib := Bench.library) (view := specView) hook (entry ∅))
      as [p|r] eqn:Hbuild; [|vm_compute in Hbuild; discriminate Hbuild].
    destruct (buildPacket_special_fields (lib := Bench.library) (view := specView)
                hook _ p Hbuild) as (Hmessage & _ & _ & Hserver & _).
    exists p. split; [reflexivity|]. rewrite Hserver, Hmessage.
    split; vm_compute; reflexivity.
Defined.

(** X6 at work: a request, a user and an error on one entry, logged at
    level error with stack traces enabled. *)
Lemma buildPacket_interface_order_witness :
  let req := {| httpMethod := "GET"; httpURL := "/items/7" |} in
  let user := {| userID := "42"; userName := "ada" |} in
  let given d := {| goValue := d; asMarshaler := false; asError := None;
                    asStringer := None |} in
  let entry :=
    {| Entry.Message := "load failed"; Entry.Time := 1000;
       Entry.Level := logrus.ErrorLevel;
       Entry.Data := <["error" := ofError (Bench.plain "boom")]>
                       (<["user" := given (DUser user)]>
                          (<["http_request" := given (DHttp req)]> ∅)) |} in
  exists p exc,
    buildPacket (lib := Bench.library) (view := specView)
      (Bench.hookWith true false 0 false (100 * Millisecond)) entry = Returned p /\
    Packet.Interfaces p = [IHttp req; IUser user; IException exc].
Proof.
  intros req user given entry.
  destruct (buildPacket (lib := Bench.library) (view := specView)
              (Bench.hookWith true false 0 false (100 * Millisecond)) entry)
    as [p|r] eqn:Hbuild; [|vm_compute in Hbuild; discriminate Hbuild].
  destruct (buildPacket_interface_order (lib := Bench.library) (view := specView)
              _ entry p Hbuild) as (block & Hifaces & _).
  vm_compute in Hbuild. injection Hbuild as <-.
  eexists _, _. split; reflexivity.
Defined.

Section PacketSafety.
Context {lib : Library} {view : FieldView}.

(** X7.  The packet [Fire] builds always has an extra-data map, also when
    [raven.NewPacket] left it nil: the map holds every field
    [formatExtraData] kept, with its formatted value, and apart from these
    only what was seeded; with nothing seeded it is exactly the formatted
    extra data. *)
Theorem buildPacket_extra_never_nil (hook : Hook) (entry : Entry.t) (p : Packet.t) :
  let df := newDataField (Entry.Data entry) in
  let seeded := Packet.Extra (raven_NewPacket (Entry.Message entry)) in
  buildPacket hook entry = Returned p ->
  exists extra,
    Packet.Extra p = Some extra /\
    (forall k v, formatExtraData hook df !! k = Some v -> extra !! k = Some v) /\
    (forall k, formatExtraData hook df !! k = None -> extra !! k = goLookup seeded k) /\
    (seeded = None -> extra = formatExtraData hook df).
Proof.
  intros df seeded Hbuild.
  apply buildPacket_returned in Hbuild as (mid & Hmid & ->). fold df in Hmid |- *.
  apply setStacktraceData_frame in Hmid as [Hextra _].
  rewrite setSpecialFields_Extra, seedPacket_Extra in Hextra. fold seeded in Hextra.
  unfold setOtherFields. rewrite Hextra.
  destruct seeded as [seed|]; simpl.
  - eexists. split; [reflexivity|]. split; [|split].
    + intros k v Hk. rewrite mergeExtra_lookup, Hk. reflexivity.
    + intros k Hk. rewrite mergeExtra_lookup, Hk. reflexivity.
    + discriminate.
  - eexists. split; [reflexivity|]. split; [|split].
    + intros k v Hk. exact Hk.
    + intros k Hk. exact Hk.
    + reflexivity.
Qed.

(** X9.  The stack-trace block goes by severity: if it runs for an entry, it
    runs for every entry that is at least as severe; with stack traces
    enabled it runs for every panic-level entry whatever level is
    configured, and with stack traces disabled it runs for none. *)
Theorem stacktraceWanted_by_severity (hook : Hook) :
  (forall entry entry',
      (Entry.Level entry' <= Entry.Level entry)%N ->
      stacktraceWanted hook entry = true ->
      stacktraceWanted hook entry' = true) /\
  (Enable (StacktraceConfiguration hook) = true ->
   forall entry, Entry.Level entry = logrus.PanicLevel -> stacktraceWanted hook entry = true) /\
  (Enable (StacktraceConfiguration hook) = false ->
   forall entry, stacktraceWanted hook entry = false).
Proof.
  split; [|split].
  - intros entry entry' Hle Hwanted.
    apply stacktraceWanted_true in Hwanted as [Henable Hlevel].
    apply stacktraceWanted_true. split; [exact Henable | lia].
  - intros Henable entry Hpanic. apply stacktraceWanted_true.
    split; [exact Henable|]. rewrite Hpanic. unfold logrus.PanicLevel. lia.
  - intros Hdisabled entry. unfold stacktraceWanted. rewrite Hdisabled. reflexivity.
Qed.

End PacketSafety.

(** X7 at work: raven seeded two keys, the entry adds one field. *)
Lemma buildPacket_extra_never_nil_witness :
  let entry :=
    {| Entry.Message := "load failed"; Entry.Time := 1000;
       Entry.Level := logrus.ErrorLevel;
       Entry.Data := <["attempt" := ofString "3"]> ∅ |} in
  exists p extra,
    buildPacket (lib := Bench.library) (view := specView) Bench.hook entry = Returned p /\
    Packet.Extra p = Some extra /\
    extra !! "attempt" = Some (ofString "3") /\
    extra !! "runtime.NumCPU" = Some (ofString "8").
Proof.
  intros entry.
  destruct (buildPacket (lib := Bench.library) (view := specView) Bench.hook entry)
    as [p|r] eqn:Hbuild; [|vm_compute in Hbuild; discriminate Hbuild].
  destruct (buildPacket_extra_never_nil (lib := Bench.library) (view := specView)
              Bench.hook entry p Hbuild) as (extra & Hextra & Hkept & Hseeded & _).
  exists p, extra. split; [reflexivity|]. split; [exact Hextra|]. split.
  - apply Hkept. vm_compute. reflexivity.
  - rewrite Hseeded; vm_compute; reflexivity.
Defined.

(** X9 at work: the block runs for an error-level entry, so it runs for a
    fatal one. *)
Lemma stacktraceWanted_by_severity_witness :
  let hook := Bench.hookWith true false 0 false (100 * Millisecond) in
  let entry level :=
    {| Entry.Message := "load failed"; Entry.Time := 1000; Entry.Level := level;
       Entry.Data := ∅ |} in
  stacktraceWanted hook (entry logrus.FatalLevel) = true.
Proof.
  intros hook entry.
  apply (proj1 (stacktraceWanted_by_severity hook) (entry logrus.ErrorLevel)
           (entry logrus.FatalLevel)).
  - cbv. intros H. discriminate H.
  - reflexivity.
Defined.

(** ** Extra data and the hook's settings *)

(** X10.  [formatData] settles in one step: formatting a formatted value
    changes nothing.  A [json.Marshaler] is returned as it is even when it
    is also an error or a [fmt.Stringer]; an error that is no marshaler
    becomes its message even when it is also a [fmt.Stringer]; and a
    formatted value that is no marshaler is neither an error nor a
    [fmt.Stringer]. *)
Theorem formatData_settles (value : iface) :
  formatData (formatData value) = formatData value /\
  (asMarshaler value = true -> formatData value = value) /\
  (asMarshaler value = false ->
   forall e, asError value = Some e -> formatData value = ofString (Error e)) /\
  (asMarshaler (formatData value) = false ->
   asError (formatData value) = None /\ asStringer (formatData value) = None).
Proof.
  unfold formatData.
  destruct value as [d [|] [e|] [s|]]; simpl;
    (split; [reflexivity|]);
    (split; [intros H; first [reflexivity | discriminate H]|]);
    (split; [intros H e' He;
             first [discriminate H | discriminate He | injection He as <-; reflexivity]|]);
    intros H; first [discriminate H | split; reflexivity].
Qed.

(** X10 at work: an error that is also a [json.Marshaler] stays as it is;
    one that is only also a [fmt.Stringer] becomes its message. *)
Lemma formatData_settles_witness :
  let e := Bench.plain "boom" in
  let marshaled :=
    {| goValue := DOther "*app.apiError" "boom"; asMarshaler := true;
       asError := Some e; asStringer := Some "apiError(boom)" |} in
  let printed :=
    {| goValue := DOther "*app.apiError" "boom"; asMarshaler := false;
       asError := Some e; asStringer := Some "apiError(boom)" |} in
  formatData marshaled = marshaled /\ formatData printed = ofString "boom".
Proof.
  intros e marshaled printed. split.
  - apply (proj1 (proj2 (formatData_settles marshaled))). reflexivity.
  - apply (proj1 (proj2 (proj2 (formatData_settles printed))) eq_refl e). reflexivity.
Defined.

Section Settings.
Context {lib : Library} {view : FieldView}.

(** X11.  The extra data holds a field of the entry exactly when the field
    is neither omitted by the view nor in the hook's ignore set; its value
    is then the registered filter applied to the field's value, or
    [formatData] of it when no filter is registered under that name.  So
    the extra data never has more keys than the entry has fields. *)
Theorem formatExtraData_keys (hook : Hook) (df : dataField) :
  (forall k,
      is_Some (formatExtraData hook df !! k) <->
      is_Some (data df !! k) /\ isOmit df k = false /\ hasKey (ignoreFields hook) k = false) /\
  (forall k v,
      formatExtraData hook df !! k = Some v ->
      exists field,
        data df !! k = Some field /\
        v = match goLookup (extraFilters hook) k with
            | Some fn => fn field
            | None => formatData field
            end) /\
  (size (formatExtraData hook df) <= size (data df))%nat.
Proof.
  assert (forall k,
             is_Some (formatExtraData hook df !! k) <->
             is_Some (data df !! k) /\ isOmit df k = false /\
             hasKey (ignoreFields hook) k = false) as Hkeys.
  { intros k. rewrite formatExtraData_lookup.
    destruct (isOmit df k); simpl.
    - split; [intros [v Hv]; discriminate Hv | intros (_ & Ho & _); discriminate Ho].
    - destruct (hasKey (ignoreFields hook) k); simpl.
      + split; [intros [v Hv]; discriminate Hv | intros (_ & _ & Hi); discriminate Hi].
      + rewrite fmap_is_Some. split.
        * intros H. split; [exact H | split; reflexivity].
        * intros (H & _ & _). exact H. }
  split; [exact Hkeys|]. split.
  - intros k v Hk. rewrite formatExtraData_lookup in Hk.
    destruct (isOmit df k || hasKey (ignoreFields hook) k); [discriminate Hk|].
    destruct (data df !! k) as [field|]; [|discriminate Hk].
    injection Hk as <-. exists field. split; reflexivity.
  - rewrite <- !(size_dom (D := gset string)). apply subseteq_size.
    intros k Hk. apply elem_of_dom. apply elem_of_dom in Hk.
    apply Hkeys in Hk as [Hdata _]. exact Hdata.
Qed.

(** X12.  After [AddIgnore name] the extra data is what it was before with
    the key [name] removed, for every entry; in the packet [Fire] builds,
    nothing of the entry is left under that key, only what
    [raven.NewPacket] seeded there. *)
Theorem AddIgnore_removes_field (hook hook' : Hook) (name : string) :
  AddIgnore hook name = Returned hook' ->
  (forall df, formatExtraData hook' df = delete name (formatExtraData hook df)) /\
  (forall entry p,
      buildPacket hook' entry = Returned p ->
      exists extra,
        Packet.Extra p = Some extra /\
        extra !! name
        = goLookup (Packet.Extra (raven_NewPacket (Entry.Message entry))) name).
Proof.
  unfold AddIgnore. destruct (ignoreFields hook) as [fields|] eqn:Hfields; [|discriminate].
  intros [= <-].
  assert (forall df,
             formatExtraData (setIgnoreFields (Some ({[name]} ∪ fields)) hook) df
             = delete name (formatExtraData hook df)) as Hdelete.
  { intros df. apply map_eq. intros k. rewrite formatExtraData_lookup. simpl.
    destruct (decide (k = name)) as [->|Hne].
    - rewrite lookup_delete_eq.
      rewrite (bool_decide_eq_true_2 (name ∈ {[name]} ∪ fields))
        by (apply elem_of_union_l, elem_of_singleton; reflexivity).
      rewrite orb_true_r. reflexivity.
    - rewrite lookup_delete_ne by congruence. rewrite formatExtraData_lookup, Hfields.
      simpl. unfold formatted. simpl.
      assert (k ∈ {[name]} ∪ fields <-> k ∈ fields) as Hiff.
      { rewrite elem_of_union, elem_of_singleton.
        split; [intros [Heq|Hin]; [contradiction | exact Hin] | intros Hin; right; exact Hin]. }
      rewrite (bool_decide_ext _ _ Hiff). reflexivity. }
  split; [exact Hdelete|].
  intros entry p Hbuild.
  destruct (buildPacket_extra_never_nil _ entry p Hbuild) as (extra & Hextra & _ & Hseeded & _).
  exists extra. split; [exact Hextra|]. apply Hseeded.
  rewrite Hdelete. apply lookup_delete_eq.
Qed.

(** X13.  After [AddExtraFilter name fn] the extra data differs at most
    under the key [name]: if the field is kept at all, its value is [fn] of
    the entry's value (a filter registered earlier under that name is
    replaced, and [formatData] is not applied); a field that is omitted or
    ignored stays out, filter or not. *)
Theorem AddExtraFilter_formats_field (hook hook' : Hook) (name : string)
  (fn : iface -> iface) :
  AddExtraFilter hook name fn = Returned hook' ->
  forall df k,
    formatExtraData hook' df !! k
    = if decide (k = name)
      then (if isOmit df k || hasKey (ignoreFields hook) k then None
            else fn <$> data df !! k)
      else formatExtraData hook df !! k.
Proof.
  unfold AddExtraFilter. destruct (extraFilters hook) as [filters|] eqn:Hfilters;
    [|discriminate].
  intros [= <-] df k. rewrite !formatExtraData_lookup. simpl.
  destruct (decide (k = name)) as [->|Hne].
  - destruct (_ || _); [reflexivity|]. unfold formatted. simpl.
    rewrite lookup_insert_eq. reflexivity.
  - destruct (_ || _); [reflexivity|]. unfold formatted. simpl.
    rewrite Hfilters. simpl. rewrite lookup_insert_ne by congruence. reflexivity.
Qed.

Lemma applySetting_step (hook hook' : Hook) (s : setting) :
  applySetting hook s = Returned hook' ->
  sameButSettings hook hook' /\
  (ignoreFields hook' = None <-> ignoreFields hook = None) /\
  (extraFilters hook' = None <-> extraFilters hook = None) /\
  (forall name,
      hasKey (ignoreFields hook') name
      = hasKey (ignoreFields hook) name
        || match s with Ignore n => String.eqb n name | Filter _ _ => false end) /\
  (forall name,
      goLookup (extraFilters hook') name
      = match s with
        | Filter n fn => if String.eqb n name then Some fn
                         else goLookup (extraFilters hook) name
        | Ignore _ => goLookup (extraFilters hook) name
        end).
Proof.
  destruct s as [n|n fn]; simpl; unfold AddIgnore, AddExtraFilter.
  - destruct (ignoreFields hook) as [fields|] eqn:Hfields; [|discriminate].
    intros [= <-]. simpl. split; [repeat split; reflexivity|].
    split; [split; discriminate|]. split; [reflexivity|]. split; [|reflexivity].
    intros name. destruct (String.eqb_spec n name) as [->|Hne].
    + rewrite orb_true_r. apply bool_decide_eq_true_2.
      apply elem_of_union_l, elem_of_singleton. reflexivity.
    + rewrite orb_false_r. apply bool_decide_ext.
      rewrite elem_of_union, elem_of_singleton.
      split; [intros [Heq|Hin]; [congruence | exact Hin] | intros Hin; right; exact Hin].
  - destruct (extraFilters hook) as [filters|] eqn:Hfilters; [|discriminate].
    intros [= <-]. simpl. split; [repeat split; reflexivity|].
    split; [reflexivity|]. split; [split; discriminate|].
    split; [intros name; rewrite orb_false_r; reflexivity|].
    intros name. destruct (String.eqb_spec n name) as [->|Hne].
    + apply lookup_insert_eq.
    + apply lookup_insert_ne. exact Hne.
Qed.

(** X14.  Calls of [AddIgnore] and [AddExtraFilter], in any number and
    order.  The sequence gets through exactly when the hook's ignore set is
    not nil or no call is an [AddIgnore], and its filter map is not nil or
    no call is an [AddExtraFilter]; a call changes neither the other map
    (which stays nil if it was) nor any other field.  After the sequence a
    name is ignored when it was before or one of the calls ignored it; the
    filter under a name is the one of the last [AddExtraFilter] under that
    name, or else the one it had; so in the extra data an ignored field
    stays out whether a filter was registered before or after, and of two
    filters under one name the later one formats the field.  On a hook as
    the constructors build it every sequence gets through. *)
Theorem applySettings_accumulates (hook : Hook) (settings : list setting) :
  ((exists hook', applySettings hook settings = Returned hook') <->
   (ignoreFields hook = None -> forall name, ~ In (Ignore name) settings) /\
   (extraFilters hook = None -> forall name fn, ~ In (Filter name fn) settings)) /\
  (forall hook',
      applySettings hook settings = Returned hook' ->
      sameButSettings hook hook' /\
      (ignoreFields hook' = None <-> ignoreFields hook = None) /\
      (extraFilters hook' = None <-> extraFilters hook = None) /\
      (forall name,
          hasKey (ignoreFields hook') name
          = hasKey (ignoreFields hook) name || ignores settings name) /\
      (forall name,
          goLookup (extraFilters hook') name
          = match lastFilter settings name with
            | Some fn => Some fn
            | None => goLookup (extraFilters hook) name
            end) /\
      (forall df k,
          formatExtraData hook' df !! k
          = if isOmit df k || (hasKey (ignoreFields hook) k || ignores settings k)
            then None
            else match lastFilter settings k with
                 | Some fn => fn
                 | None => formatted hook k
                 end <$> data df !! k)) /\
  (defaultConfiguration hook -> exists hook', applySettings hook settings = Returned hook').
Proof.
  assert (forall settings hook,
             (exists hook', applySettings hook settings = Returned hook') <->
             (ignoreFields hook = None -> forall name, ~ In (Ignore name) settings) /\
             (extraFilters hook = None -> forall name fn, ~ In (Filter name fn) settings))
    as Hreturns.
  { clear hook settings. induction settings as [|s rest IH]; intros hook.
    - simpl. split; [intros _; split; intros _ ?; intros; tauto | eauto].
    - simpl. split.
      + intros [hook' Hrun]. apply bind_returned in Hrun as (mid & Hstep & Hrest).
        destruct (applySetting_step _ _ _ Hstep) as (_ & Hi & Hf & _).
        destruct (proj1 (IH mid) (ex_intro _ hook' Hrest)) as [Hri Hrf].
        split.
        * intros Hnil name [Heq|Hin]; [|exact (Hri (proj2 Hi Hnil) name Hin)].
          subst s. simpl in Hstep. unfold AddIgnore in Hstep. rewrite Hnil in Hstep.
          discriminate Hstep.
        * intros Hnil name fn [Heq|Hin]; [|exact (Hrf (proj2 Hf Hnil) name fn Hin)].
          subst s. simpl in Hstep. unfold AddExtraFilter in Hstep. rewrite Hnil in Hstep.
          discriminate Hstep.
      + intros [Hi Hf].
        assert (exists mid, applySetting hook s = Returned mid) as [mid Hstep].
        { destruct s as [n|n fn]; simpl; unfold AddIgnore, AddExtraFilter.
          - destruct (ignoreFields hook) as [fields|]; [eauto|].
            exfalso. apply (Hi eq_refl n). left. reflexivity.
          - destruct (extraFilters hook) as [filters|]; [eauto|].
            exfalso. apply (Hf eq_refl n fn). left. reflexivity. }
        rewrite Hstep. simpl.
        destruct (applySetting_step _ _ _ Hstep) as (_ & Hmi & Hmf & _).
        apply IH. split.
        * intros Hnil name Hin. apply (Hi (proj1 Hmi Hnil) name). right. exact Hin.
        * intros Hnil name fn Hin. apply (Hf (proj1 Hmf Hnil) name fn). right. exact Hin. }
  assert (forall settings hook hook',
             applySettings hook settings = Returned hook' ->
             sameButSettings hook hook' /\
             (ignoreFields hook' = None <-> ignoreFields hook = None) /\
             (extraFilters hook' = None <-> extraFilters hook = None) /\
             (forall name,
                 hasKey (ignoreFields hook') name
                 = hasKey (ignoreFields hook) name || ignores settings name) /\
             (forall name,
                 goLookup (extraFilters hook') name
                 = match lastFilter settings name with
                   | Some fn => Some fn
                   | None => goLookup (extraFilters hook) name
                   end)) as Hstate.
  { clear hook settings Hreturns. induction settings as [|s rest IH]; intros hook hook' Hrun.
    - simpl in Hrun. injection Hrun as <-. split; [repeat split; reflexivity|].
      split; [reflexivity|]. split; [reflexivity|].
      split; [intros name; simpl; rewrite orb_false_r; reflexivity | reflexivity].
    - simpl in Hrun. apply bind_returned in Hrun as (mid & Hstep & Hrest).
      destruct (applySetting_step _ _ _ Hstep) as (Hsame1 & Hi1 & Hf1 & Hkey1 & Hfn1).
      destruct (IH _ _ Hrest) as (Hsame2 & Hi2 & Hf2 & Hkey2 & Hfn2).
      split.
      { destruct Hsame1 as (? & ? & ? & ? & ? & ?), Hsame2 as (? & ? & ? & ? & ? & ?).
        repeat split; congruence. }
      split; [rewrite Hi2; exact Hi1|]. split; [rewrite Hf2; exact Hf1|].
      split.
      + intros name. rewrite Hkey2, Hkey1. simpl. rewrite orb_assoc. reflexivity.
      + intros name. rewrite Hfn2, Hfn1. simpl.
        destruct (lastFilter rest name); [reflexivity|].
        destruct s as [n|n fn]; [reflexivity|]. destruct (String.eqb n name); reflexivity. }
  split; [apply Hreturns|]. split.
  - intros hook' Hrun.
    destruct (Hstate _ _ _ Hrun) as (Hsame & Hi & Hf & Hkey & Hfn).
    split; [exact Hsame|]. split; [exact Hi|]. split; [exact Hf|].
    split; [exact Hkey|]. split; [exact Hfn|].
    intros df k. rewrite formatExtraData_lookup, Hkey.
    destruct (isOmit df k || (hasKey (ignoreFields hook) k || ignores settings k));
      [reflexivity|].
    unfold formatted. rewrite Hfn.
    destruct (lastFilter settings k); reflexivity.
  - intros (_ & _ & Hi & Hf). apply Hreturns.
    split; [rewrite Hi | rewrite Hf]; discriminate.
Qed.

End Settings.

(** X11 at work: of three fields, one is a well-known name and one is
    ignored; the third is kept, formatted. *)
Lemma formatExtraData_keys_witness :
  let hook := setIgnoreFields (Some {["password"]}) Bench.hook in
  let df :=
    newDataField (<["password" := ofString "hunter2"]>
                    (<["logger" := ofString "store"]>
                       (<["cause" := ofError (Bench.plain "boom")]> ∅))) in
  formatExtraData (view := specView) hook df !! "cause" = Some (ofString "boom") /\
  formatExtraData (view := specView) hook df !! "password" = None /\
  formatExtraData (view := specView) hook df !! "logger" = None.
Proof.
  intros hook df.
  destruct (formatExtraData_keys (view := specView) hook df) as (Hkeys & Hvalues & _).
  assert (is_Some (formatExtraData (view := specView) hook df !! "cause")) as [v Hv].
  { apply Hkeys. split; [eexists; vm_compute; reflexivity | split; reflexivity]. }
  split; [|split].
  - destruct (Hvalues "cause" v Hv) as (field & Hfield & ->).
    vm_compute in Hfield. injection Hfield as <-. exact Hv.
  - apply eq_None_not_Some. intros H. apply Hkeys in H as (_ & _ & H). discriminate H.
  - apply eq_None_not_Some. intros H. apply Hkeys in H as (_ & H & _). discriminate H.
Defined.

(** X12 at work: "runtime.Version" is ignored; the entry's value for it
    stays out and the packet keeps the one raven seeded. *)
Lemma AddIgnore_removes_field_witness :
  let entry :=
    {| Entry.Message := "load failed"; Entry.Time := 1000;
       Entry.Level := logrus.ErrorLevel;
       Entry.Data := <["runtime.Version" := ofString "patched"]> ∅ |} in
  exists hook' p extra,
    AddIgnore Bench.hook "runtime.Version" = Returned hook' /\
    buildPacket (lib := Bench.library) (view := specView) hook' entry = Returned p /\
    Packet.Extra p = Some extra /\
    extra !! "runtime.Version" = Some (ofString "go1.11").
Proof.
  intros entry.
  destruct (AddIgnore Bench.hook "runtime.Version") as [hook'|r] eqn:Hadd;
    [|discriminate Hadd].
  destruct (AddIgnore_removes_field (lib := Bench.library) (view := specView)
              Bench.hook hook' "runtime.Version" Hadd) as [_ Hpacket].
  injection Hadd as <-.
  destruct (buildPacket (lib := Bench.library) (view := specView)
              (setIgnoreFields (Some ({["runtime.Version"]} ∪ ∅)) Bench.hook) entry)
    as [p|r] eqn:Hbuild; [|vm_compute in Hbuild; discriminate Hbuild].
  destruct (Hpacket entry p Hbuild) as (extra & Hextra & Hkey).
  eexists _, p, extra. split; [reflexivity|]. split; [exact Hbuild|].
  split; [exact Hextra|]. rewrite Hkey. vm_compute. reflexivity.
Defined.

(** X13 at work: a filter that masks the value of "token". *)
Lemma AddExtraFilter_formats_field_witness :
  let mask (v : iface) := ofString "***" in
  let df := newDataField (<["token" := ofString "s3cr3t"]>
                            (<["attempt" := ofString "3"]> ∅)) in
  exists hook',
    AddExtraFilter Bench.hook "token" mask = Returned hook' /\
    formatExtraData (view := specView) hook' df !! "token" = Some (ofString "***") /\
    formatExtraData (view := specView) hook' df !! "attempt" = Some (ofString "3").
Proof.
  intros mask df.
  destruct (AddExtraFilter Bench.hook "token" mask) as [hook'|r] eqn:Hadd;
    [|discriminate Hadd].
  pose proof (AddExtraFilter_formats_field (view := specView)
                Bench.hook hook' "token" mask Hadd df) as Hlookup.
  exists hook'. split; [reflexivity|]. rewrite !Hlookup.
  split; vm_compute; reflexivity.
Defined.

(** X14 at work: on the hook of the bench, a mask registered under "token"
    replaces the filter registered first, and "password" stays out although
    a filter is registered under it after it was ignored; on a hook whose
    ignore set is nil a sequence with an [AddIgnore] does not get through,
    one of filters only does and leaves the set nil. *)
Lemma applySettings_accumulates_witness :
  let mask (v : iface) := ofString "***" in
  let settings :=
    [Filter "token" formatData; Ignore "password"; Filter "token" mask;
     Filter "password" mask] in
  let df := newDataField (<["token" := ofString "s3cr3t"]>
                            (<["password" := ofString "hunter2"]>
                               (<["attempt" := ofString "3"]> ∅))) in
  (exists hook',
      applySettings Bench.hook settings = Returned hook' /\
      formatExtraData (view := specView) hook' df !! "token" = Some (ofString "***") /\
      formatExtraData (view := specView) hook' df !! "password" = None /\
      formatExtraData (view := specView) hook' df !! "attempt" = Some (ofString "3")) /\
  (forall hook', applySettings (setIgnoreFields None Bench.hook) settings <> Returned hook') /\
  (exists hook',
      applySettings (setIgnoreFields None Bench.hook) [Filter "token" mask] = Returned hook' /\
      ignoreFields hook' = None).
Proof.
  intros mask settings df. split; [|split].
  - destruct (applySettings_accumulates (view := specView) Bench.hook settings)
      as (Hreturns & Hstate & _).
    destruct (proj2 Hreturns) as [hook' Hrun]; [split; discriminate|].
    destruct (Hstate hook' Hrun) as (_ & _ & _ & _ & _ & Hextra).
    exists hook'. split; [exact Hrun|]. rewrite !Hextra.
    subst mask settings df. split; [|split]; vm_compute; reflexivity.
  - intros hook' Hrun.
    destruct (applySettings_accumulates (view := specView)
                (setIgnoreFields None Bench.hook) settings) as (Hreturns & _).
    destruct (proj1 Hreturns (ex_intro _ hook' Hrun)) as [Hignore _].
    apply (Hignore eq_refl "password"). right. left. reflexivity.
  - destruct (applySettings_accumulates (view := specView)
                (setIgnoreFields None Bench.hook) [Filter "token" mask])
      as (Hreturns & Hstate & _).
    destruct (proj2 Hreturns) as [hook' Hrun].
    { split; [|discriminate]. intros _ name [Heq|[]]. discriminate Heq. }
    exists hook'. split; [exact Hrun|].
    destruct (Hstate hook' Hrun) as (_ & Hnil & _). apply Hnil. reflexivity.
Defined.

(** ** Construction and the exception descriptor *)

Section Construction.
Context {lib : Library}.

(** X15.  [Verify] and the factory [New] agree with [raven.New]: [Verify]
    is true exactly when [raven.New] reports no error for the connection
    string, exactly then [New] returns a hook, and that hook listens to the
    levels panic, fatal and error.  When [raven.New] reports an error, every
    constructor from a connection string returns no hook together with that
    very error, even though [raven.New] handed out a client.  [Verify]
    never looks at the hook it is called on. *)
Theorem Verify_New_agree (hook : Hook) (dsn : string) :
  (Verify hook dsn = true <-> snd (raven_New dsn) = None) /\
  (Verify hook dsn = true <-> is_Some (New dsn)) /\
  (forall built, New dsn = Some built ->
     Levels built = [logrus.PanicLevel; logrus.FatalLevel; logrus.ErrorLevel]) /\
  (forall e levels,
     snd (raven_New dsn) = Some e ->
     NewHook dsn levels = (None, Some e) /\
     NewAsyncHook dsn levels = (None, Some e) /\
     New dsn = None) /\
  (forall other, Verify other dsn = Verify hook dsn).
Proof.
  unfold Verify, New, NewAsyncHook, NewHook.
  destruct (raven_New dsn) as [c [e|]]; simpl.
  - split; [split; discriminate|]. split; [split; [discriminate | intros [? [=]]]|].
    split; [discriminate|]. split; [|reflexivity].
    intros e' levels [= <-]. repeat split; reflexivity.
  - split; [split; reflexivity|]. split; [split; [eauto | reflexivity]|].
    split; [intros built [= <-]; reflexivity|]. split; [discriminate | reflexivity].
Qed.

(** The cause [errors.Cause] finds is the innermost link of the chain,
    unless that link has a [Cause] method, which then returned nil. *)
Lemma errors_Cause_innermost :
  forall err,
    errors_Cause err
    = match asCauser (innermost err) with
      | Some None => None
      | _ => Some (innermost err)
      end.
Proof.
  fix IH 1. intros [msg typ tr ptr [[cause|]|]]; simpl.
  - apply IH.
  - reflexivity.
  - reflexivity.
Qed.

(** X16.  The exception descriptor is built by [raven.NewException] from the
    innermost error of the chain and the trace [Fire] goes on with; when the
    innermost error has a [Cause] method (which returned nil), it is built
    from the logged error itself instead.  With [SendExceptionType] off the
    type of the descriptor is blanked and nothing else of it changes. *)
Theorem exceptionOf_root_cause (hook : Hook) (err : error) (cur : option Stacktrace) :
  let root := match asCauser (innermost err) with
              | Some None => err
              | _ => innermost err
              end in
  let built := raven_NewException root cur in
  (SendExceptionType (StacktraceConfiguration hook) = true ->
   exceptionOf hook err cur = built) /\
  (SendExceptionType (StacktraceConfiguration hook) = false ->
   exType (exceptionOf hook err cur) = EmptyString /\
   exValue (exceptionOf hook err cur) = exValue built /\
   exModule (exceptionOf hook err cur) = exModule built /\
   exStacktrace (exceptionOf hook err cur) = exStacktrace built).
Proof.
  intros root built. unfold exceptionOf. rewrite errors_Cause_innermost. fold root.
  assert (default err match asCauser (innermost err) with
                      | Some None => None
                      | _ => Some (innermost err)
                      end = root) as ->.
  { unfold root. destruct (asCauser (innermost err)) as [[?|]|]; reflexivity. }
  fold built. split; intros ->; [reflexivity|]. repeat split; reflexivity.
Qed.

End Construction.

(** X15 at work: a malformed connection string. *)
Lemma Verify_New_agree_witness :
  Verify (lib := Bench.library) Bench.hook "sentry" = false /\
  New (lib := Bench.library) "sentry" = None /\
  Verify (lib := Bench.library) Bench.hook "https://key@sentry.example/1" = true.
Proof.
  destruct (Verify_New_agree (lib := Bench.library) Bench.hook "sentry")
    as (Hverify & _ & _ & Hfail & _).
  destruct (Verify_New_agree (lib := Bench.library) Bench.hook
              "https://key@sentry.example/1") as (Hok & _).
  split; [|split].
  - destruct (Verify (lib := Bench.library) Bench.hook "sentry") eqn:Hv; [|reflexivity].
    pose proof (proj1 Hverify eq_refl) as Hnone. vm_compute in Hnone. discriminate Hnone.
  - apply (Hfail (errors_New "raven: dsn missing public key and/or password") []).
    reflexivity.
  - apply Hok. reflexivity.
Defined.

(** X16 at work: "boom" wrapped twice, logged with exception types on; the
    descriptor is the one of "boom", not of the wrapper. *)
Lemma exceptionOf_root_cause_witness :
  let err := Bench.wrap "request" (Bench.wrap "load" (Bench.plain "boom")) in
  exceptionOf (lib := Bench.library) Bench.hook err None
  = {| exValue := "boom"; exType := "MyError"; exModule := EmptyString;
       exStacktrace := None |}.
Proof.
  intros err.
  apply (proj1 (exceptionOf_root_cause (lib := Bench.library) Bench.hook err None)).
  reflexivity.
Defined.

(** * Further properties: the Airbrake hook *)

Section Airbrake.
Context {gobrake : airbrake.Gobrake}.

Lemma elem_of_rangeOrder (m : gmap string iface) (k : string) (v : iface) :
  (k, v) ∈ airbrake.rangeOrder m <-> m !! k = Some v.
Proof. rewrite airbrake.rangeOrder_enumerates. apply elem_of_map_to_list. Qed.

Lemma NoDup_rangeOrder (m : gmap string iface) : NoDup (airbrake.rangeOrder m).*1.
Proof.
  rewrite airbrake.rangeOrder_enumerates. apply NoDup_fst_map_to_list.
Qed.

Lemma list_to_map_rangeOrder (m : gmap string iface) :
  list_to_map (airbrake.rangeOrder m) = m.
Proof.
  rewrite <- (list_to_map_to_list m) at 2.
  apply list_to_map_proper; [apply NoDup_rangeOrder | apply airbrake.rangeOrder_enumerates].
Qed.

Lemma findRequest_Some fields k r :
  airbrake.findRequest fields = Some (k, r) ->
  exists v, (k, v) ∈ fields /\ airbrake.asRequest v = Some r.
Proof.
  induction fields as [|[k' v'] rest IH]; simpl; [discriminate|].
  destruct (airbrake.asRequest v') as [r'|] eqn:Hreq.
  - intros [= -> ->]. exists v'. split; [left | exact Hreq].
  - intros H. destruct (IH H) as (v & Hin & Hv). exists v. split; [right; exact Hin | exact Hv].
Qed.

Lemma findRequest_None fields :
  airbrake.findRequest fields = None <->
  forall k v, (k, v) ∈ fields -> airbrake.asRequest v = None.
Proof.
  induction fields as [|[k' v'] rest IH]; simpl.
  - split; [intros _ k v Hin; inversion Hin | reflexivity].
  - destruct (airbrake.asRequest v') as [r'|] eqn:Hreq.
    + split; [discriminate|]. intros H. rewrite (H k' v') in Hreq by left. discriminate Hreq.
    + rewrite IH. split.
      * intros H k v Hin. apply elem_of_cons in Hin as [[= -> ->]|Hin]; [exact Hreq | eauto].
      * intros H k v Hin. apply (H k v). right. exact Hin.
Qed.

Lemma foldl_writeContext fields :
  NoDup fields.*1 ->
  forall notice,
    airbrake.Errors (foldl airbrake.writeContext notice fields) = airbrake.Errors notice /\
    forall k,
      airbrake.Context (foldl airbrake.writeContext notice fields) !! k
      = match (list_to_map fields : gmap string iface) !! k with
        | Some v => Some (ofString (airbrake.fmt_Sprintf_s v))
        | None => airbrake.Context notice !! k
        end.
Proof.
  induction fields as [|[k0 v0] rest IH]; simpl; intros Hnodup notice.
  - split; [reflexivity|]. intros k. rewrite lookup_empty. reflexivity.
  - apply NoDup_cons in Hnodup as [Hfresh Hnodup].
    destruct (IH Hnodup (airbrake.writeContext notice (k0, v0))) as [Herrors Hcontext].
    split; [rewrite Herrors; reflexivity|].
    intros k. rewrite Hcontext. simpl.
    destruct (decide (k = k0)) as [->|Hne].
    + rewrite (not_elem_of_list_to_map_1 (M := gmap string) rest k0 Hfresh).
      rewrite !lookup_insert_eq. reflexivity.
    + rewrite !lookup_insert_ne by congruence. reflexivity.
Qed.

(** X17.  The Airbrake [Fire] takes at most one request out of the entry,
    whatever the order in which the map is ranged over: if no field holds a
    request, the notice is built without one and the entry's fields are
    left as they are; otherwise the notice is built with the request of one
    such field, and that field, and no other, is deleted from the entry's
    own map.  Fields that hold no request always stay.  [Fire] returns
    nil. *)
Theorem airbrake_Fire_takes_one_request (hook : airbrake.airbrakeHook) (entry : Entry.t) :
  let fields := Entry.Data entry in
  let result := airbrake.Fire hook entry in
  airbrake.returned result = None /\
  ((forall k v, fields !! k = Some v -> airbrake.asRequest v = None) ->
   airbrake.dataAfter result = fields /\
   airbrake.Errors (airbrake.sent result)
   = airbrake.Errors (airbrake.gobrake_Notice (airbrake.Airbrake hook)
                        (airbrake.notifyError entry) None 3)) /\
  ((exists k v r, fields !! k = Some v /\ airbrake.asRequest v = Some r) ->
   exists k v r,
     fields !! k = Some v /\ airbrake.asRequest v = Some r /\
     airbrake.dataAfter result = delete k fields /\
     airbrake.Errors (airbrake.sent result)
     = airbrake.Errors (airbrake.gobrake_Notice (airbrake.Airbrake hook)
                          (airbrake.notifyError entry) (Some r) 3)) /\
  (forall k v,
      fields !! k = Some v -> airbrake.asRequest v = None ->
      airbrake.dataAfter result !! k = Some v).
Proof.
  intros fields result. subst result. unfold airbrake.Fire, airbrake.takeRequest.
  fold fields.
  destruct (airbrake.findRequest (airbrake.rangeOrder fields)) as [[k r]|] eqn:Hfind.
  - apply findRequest_Some in Hfind as (v & Hin & Hreq). apply elem_of_rangeOrder in Hin.
    simpl. split; [reflexivity|]. split; [|split].
    + intros Hnone. rewrite (Hnone k v Hin) in Hreq. discriminate Hreq.
    + intros _. exists k, v, r. split; [exact Hin|]. split; [exact Hreq|].
      split; [reflexivity|].
      apply (foldl_writeContext _ (NoDup_rangeOrder _)).
    + intros k' v' Hk' Hnone. rewrite lookup_delete_ne; [exact Hk'|].
      intros <-. rewrite Hin in Hk'. injection Hk' as <-. rewrite Hreq in Hnone.
      discriminate Hnone.
  - simpl. split; [reflexivity|]. split; [|split].
    + intros _. split; [reflexivity|]. apply (foldl_writeContext _ (NoDup_rangeOrder _)).
    + intros (k & v & r & Hk & Hreq).
      rewrite findRequest_None in Hfind.
      rewrite (Hfind k v) in Hreq by (apply elem_of_rangeOrder; exact Hk).
      discriminate Hreq.
    + intros k v Hk _. exact Hk.
Qed.

(** X18.  The context of the notice the Airbrake [Fire] sends: under every
    field name the entry has left once the request is taken out, the
    field's value printed with [%s], also where gobrake had put a value of
    its own and also for the "error" field that the notice is already
    about; under every other name, what gobrake had put there. *)
Theorem airbrake_Fire_context (hook : airbrake.airbrakeHook) (entry : Entry.t) :
  let result := airbrake.Fire hook entry in
  let built :=
    airbrake.gobrake_Notice (airbrake.Airbrake hook) (airbrake.notifyError entry)
      (fst (airbrake.takeRequest (Entry.Data entry))) 3 in
  airbrake.Errors (airbrake.sent result) = airbrake.Errors built /\
  forall k,
    airbrake.Context (airbrake.sent result) !! k
    = match airbrake.dataAfter result !! k with
      | Some v => Some (ofString (airbrake.fmt_Sprintf_s v))
      | None => airbrake.Context built !! k
      end.
Proof.
  intros result built. subst result built. unfold airbrake.Fire.
  destruct (airbrake.takeRequest (Entry.Data entry)) as [req fields]. simpl.
  destruct (foldl_writeContext (airbrake.rangeOrder fields) (NoDup_rangeOrder fields)
              (airbrake.gobrake_Notice (airbrake.Airbrake hook)
                 (airbrake.notifyError entry) req 3)) as [Herrors Hcontext].
  split; [exact Herrors|]. intros k. rewrite Hcontext, list_to_map_rangeOrder. reflexivity.
Qed.

(** X19.  The filter [NewHook] installs drops every notice when the
    environment is "development".  For any other environment it keeps the
    notice and changes only the context key "environment", which it sets to
    the environment.  Applied to the notice [Fire] sends, it therefore
    replaces the printed value of an entry field that is itself named
    "environment" and leaves the rest of the context as [Fire] wrote it. *)
Theorem airbrake_environment_filter (env : string) (notice : airbrake.Notice) :
  (env = "development" -> airbrake.environmentFilter env notice = None) /\
  (env <> "development" ->
   exists kept,
     airbrake.environmentFilter env notice = Some kept /\
     airbrake.Errors kept = airbrake.Errors notice /\
     airbrake.Context kept !! "environment" = Some (ofString env) /\
     (forall k, k <> "environment" ->
        airbrake.Context kept !! k = airbrake.Context notice !! k)) /\
  (env <> "development" ->
   forall hook entry,
     let result := airbrake.Fire hook entry in
     let built :=
       airbrake.gobrake_Notice (airbrake.Airbrake hook) (airbrake.notifyError entry)
         (fst (airbrake.takeRequest (Entry.Data entry))) 3 in
     exists kept,
       airbrake.environmentFilter env (airbrake.sent result) = Some kept /\
       forall k,
         airbrake.Context kept !! k
         = if decide (k = "environment") then Some (ofString env)
           else match airbrake.dataAfter result !! k with
                | Some v => Some (ofString (airbrake.fmt_Sprintf_s v))
                | None => airbrake.Context built !! k
                end).
Proof.
  unfold airbrake.environmentFilter.
  destruct (String.eqb_spec env "development") as [->|Hne].
  - split; [reflexivity|]. split; intros H; contradiction.
  - split; [intros H; contradiction|]. split.
    + intros _. eexists. split; [reflexivity|]. split; [reflexivity|]. simpl.
      split; [apply lookup_insert_eq|]. intros k Hk.
      apply lookup_insert_ne. congruence.
    + intros _ hook entry. cbv zeta. eexists. split; [reflexivity|].
      intros k. simpl. destruct (decide (k = "environment")) as [->|Hk].
      * apply lookup_insert_eq.
      * rewrite lookup_insert_ne by congruence.
        unfold airbrake.Fire.
        destruct (airbrake.takeRequest (Entry.Data entry)) as [req fields]. simpl.
        destruct (foldl_writeContext (airbrake.rangeOrder fields) (NoDup_rangeOrder fields)
                    (airbrake.gobrake_Notice (airbrake.Airbrake hook)
                       (airbrake.notifyError entry) req 3)) as [_ Hcontext].
        rewrite Hcontext, list_to_map_rangeOrder. reflexivity.
Qed.

End Airbrake.

(** X17 at work: an entry with an error, a request and a counter; the
    request is taken out of the entry, the counter stays. *)
Lemma airbrake_Fire_takes_one_request_witness :
  let req := {| httpMethod := "GET"; httpURL := "/items/7" |} in
  let held := {| goValue := DHttp req; asMarshaler := false; asError := None;
                 asStringer := None |} in
  let entry :=
    {| Entry.Message := "load failed"; Entry.Time := 1000;
       Entry.Level := logrus.ErrorLevel;
       Entry.Data := <["error" := ofError (Bench.plain "boom")]>
                       (<["req" := held]> (<["attempt" := ofString "3"]> ∅)) |} in
  let hook := airbrake.NewHook (gobrake := airbrake.benchGobrake) 7 "key" "production" in
  airbrake.dataAfter (airbrake.Fire hook entry) !! "attempt" = Some (ofString "3") /\
  airbrake.dataAfter (airbrake.Fire hook entry) !! "req" = None /\
  airbrake.returned (airbrake.Fire hook entry) = None.
Proof.
  intros req held entry hook.
  destruct (airbrake_Fire_takes_one_request (gobrake := airbrake.benchGobrake) hook entry)
    as (Hnil & _ & _ & Hstay).
  split; [|split].
  - apply Hstay; reflexivity.
  - vm_compute. reflexivity.
  - exact Hnil.
Defined.

(** X18 at work: the same entry; the context has the error's message under
    "error", the counter under "attempt" and gobrake's own "language". *)
Lemma airbrake_Fire_context_witness :
  let req := {| httpMethod := "GET"; httpURL := "/items/7" |} in
  let held := {| goValue := DHttp req; asMarshaler := false; asError := None;
                 asStringer := None |} in
  let entry :=
    {| Entry.Message := "load failed"; Entry.Time := 1000;
       Entry.Level := logrus.ErrorLevel;
       Entry.Data := <["error" := ofError (Bench.plain "boom")]>
                       (<["req" := held]> (<["attempt" := ofString "3"]> ∅)) |} in
  let hook := airbrake.NewHook (gobrake := airbrake.benchGobrake) 7 "key" "production" in
  let context := airbrake.Context (airbrake.sent (airbrake.Fire hook entry)) in
  context !! "error" = Some (ofString "boom") /\
  context !! "attempt" = Some (ofString "3") /\
  context !! "language" = Some (ofString "go1.11") /\
  context !! "req" = None.
Proof.
  intros req held entry hook context. subst context.
  destruct (airbrake_Fire_context (gobrake := airbrake.benchGobrake) hook entry)
    as [_ Hcontext].
  rewrite !Hcontext. repeat split; vm_compute; reflexivity.
Defined.

(** X19 at work: an entry with a field "environment", sent by a production
    hook and by a development hook. *)
Lemma airbrake_environment_filter_witness :
  let entry :=
    {| Entry.Message := "load failed"; Entry.Time := 1000;
       Entry.Level := logrus.ErrorLevel;
       Entry.Data := <["environment" := ofString "staging"]> ∅ |} in
  let hook := airbrake.NewHook (gobrake := airbrake.benchGobrake) 7 "key" "production" in
  let notice := airbrake.sent (airbrake.Fire hook entry) in
  airbrake.Context notice !! "environment" = Some (ofString "staging") /\
  (exists kept,
      airbrake.environmentFilter "production" notice = Some kept /\
      airbrake.Context kept !! "environment" = Some (ofString "production")) /\
  airbrake.environmentFilter "development" notice = None.
Proof.
  intros entry hook notice.
  destruct (airbrake_environment_filter (gobrake := airbrake.benchGobrake)
              "production" notice) as (_ & Hkept & _).
  destruct (airbrake_environment_filter (gobrake := airbrake.benchGobrake)
              "development" notice) as (Hdropped & _).
  split; [vm_compute; reflexivity|]. split.
  - destruct Hkept as (kept & Hfilter & _ & Henv & _); [discriminate|].
    exists kept. split; [exact Hfilter | exact Henv].
  - apply Hdropped. reflexivity.
Defined.

(** ** What the resolver takes from the hook *)

Section ResolverSettings.
Context {lib : Library}.

Lemma collectFrames_settings (stConfig stConfig' : StackTraceConfiguration)
  (raw : list Frame) :
  Context stConfig = Context stConfig' ->
  InAppPrefixes stConfig = InAppPrefixes stConfig' ->
  forall frames, collectFrames stConfig raw frames = collectFrames stConfig' raw frames.
Proof.
  intros Hcontext Hprefixes.
  induction raw as [|pc raw IH]; intros frames; simpl; [reflexivity|].
  unfold convertFrame. rewrite Hcontext, Hprefixes.
  destruct (Func_FileLine (runtime_FuncForPC pc) pc) as [[file line]|reason]; simpl;
    [apply IH | reflexivity].
Qed.

(** X20.  Of the hook's settings the resolver uses only the number of
    context lines and the in-app prefixes: two hooks that agree on these
    resolve every error to the same trace.  The number of frames to skip,
    in particular, applies to freshly captured traces only, never to a
    trace taken from an error. *)
Theorem findStacktrace_settings (hook hook' : Hook) (err : error) :
  Context (StacktraceConfiguration hook) = Context (StacktraceConfiguration hook') ->
  InAppPrefixes (StacktraceConfiguration hook)
  = InAppPrefixes (StacktraceConfiguration hook') ->
  findStacktrace hook err = findStacktrace hook' err /\
  forall st, convertStackTrace hook st = convertStackTrace hook' st.
Proof.
  intros Hcontext Hprefixes.
  assert (forall st, convertStackTrace hook st = convertStackTrace hook' st) as Hconvert.
  { intros st. unfold convertStackTrace.
    rewrite (collectFrames_settings _ _ _ Hcontext Hprefixes). reflexivity. }
  split; [|exact Hconvert].
  unfold findStacktrace. destruct (walkChain err (None, None)) as [stacktrace [raw|]];
    [rewrite Hconvert|]; reflexivity.
Qed.

End ResolverSettings.

(** X20 at work: skipping no frame or a hundred, the trace of the error
    is the same. *)
Lemma findStacktrace_settings_witness :
  let err := Bench.traced "disk" (Some [8192%N; 4096%N]) in
  findStacktrace (lib := Bench.library)
    (Bench.hookWith true false 0 false (100 * Millisecond)) err
  = findStacktrace (lib := Bench.library)
      (Bench.hookWith false true 100 true 0) err.
Proof.
  intros err.
  apply (findStacktrace_settings (lib := Bench.library)
           (Bench.hookWith true false 0 false (100 * Millisecond))
           (Bench.hookWith false true 100 true 0) err); reflexivity.
Defined.
